(** * j2cli: a shallow embedding of [j2cli/cli.py]

    The program is a thin command-line wrapper around the Jinja2 template
    engine: it reads a YAML data file, builds a [Jinja2TemplateRenderer],
    loads filter and test functions from Python files, renders one template
    and sends the encoded result to standard output or to a file.

    The embedding keeps the structure of the source.  Python text ([str])
    is a list of Unicode code points, [bytes] a list of octets, dictionaries
    are finite maps, exceptions are values of [PyExc], and everything that
    touches the interpreter or the operating system (files, the shared
    default argument of [__init__], [sys.modules]) is threaded through an
    explicit [World]. *)

From Stdlib Require Import NArith ZArith List Bool String Ascii DecimalString Lia.
From stdpp Require Import base option gmap strings list fin_maps.

Local Open Scope N_scope.

(** ** Text and bytes *)

(** A Python [str] is a sequence of code points, a [bytes] object a
    sequence of octets (numbers below 256). *)
Definition pystr := list N.
Definition bytes := list N.

Definition LF : N := 10.
Definition CR : N := 13.

(** Text encodings that the program names: ['utf-8'] and ['cp1252']. *)
Inductive Encoding := UTF8 | CP1252.

Module Codec.

(** *** cp1252

    Python's [cp1252] codec: octets below 0x80 and from 0xA0 on are the
    code points of the same value; 0x80-0x9F go through the table of the
    Windows code page, in which five octets are undefined. *)

Definition cp1252_encode_char (c : N) : option N :=
  if c <? 0x80 then Some c
  else if (0xA0 <=? c) && (c <=? 0xFF) then Some c
  else match c with
       | 0x20AC => Some 0x80 | 0x201A => Some 0x82 | 0x0192 => Some 0x83
       | 0x201E => Some 0x84 | 0x2026 => Some 0x85 | 0x2020 => Some 0x86
       | 0x2021 => Some 0x87 | 0x02C6 => Some 0x88 | 0x2030 => Some 0x89
       | 0x0160 => Some 0x8A | 0x2039 => Some 0x8B | 0x0152 => Some 0x8C
       | 0x017D => Some 0x8E | 0x2018 => Some 0x91 | 0x2019 => Some 0x92
       | 0x201C => Some 0x93 | 0x201D => Some 0x94 | 0x2022 => Some 0x95
       | 0x2013 => Some 0x96 | 0x2014 => Some 0x97 | 0x02DC => Some 0x98
       | 0x2122 => Some 0x99 | 0x0161 => Some 0x9A | 0x203A => Some 0x9B
       | 0x0153 => Some 0x9C | 0x017E => Some 0x9E | 0x0178 => Some 0x9F
       | _ => None
       end.

Definition cp1252_decode_byte (b : N) : option N :=
  if b <? 0x80 then Some b
  else if (0xA0 <=? b) && (b <=? 0xFF) then Some b
  else match b with
       | 0x80 => Some 0x20AC | 0x82 => Some 0x201A | 0x83 => Some 0x0192
       | 0x84 => Some 0x201E | 0x85 => Some 0x2026 | 0x86 => Some 0x2020
       | 0x87 => Some 0x2021 | 0x88 => Some 0x02C6 | 0x89 => Some 0x2030
       | 0x8A => Some 0x0160 | 0x8B => Some 0x2039 | 0x8C => Some 0x0152
       | 0x8E => Some 0x017D | 0x91 => Some 0x2018 | 0x92 => Some 0x2019
       | 0x93 => Some 0x201C | 0x94 => Some 0x201D | 0x95 => Some 0x2022
       | 0x96 => Some 0x2013 | 0x97 => Some 0x2014 | 0x98 => Some 0x02DC
       | 0x99 => Some 0x2122 | 0x9A => Some 0x0161 | 0x9B => Some 0x203A
       | 0x9C => Some 0x0153 | 0x9E => Some 0x017E | 0x9F => Some 0x0178
       | _ => None
       end.

(** [s.encode('cp1252')]: the first character outside the code page
    makes the whole call fail ([None] stands for [UnicodeEncodeError]). *)
Fixpoint cp1252_encode (s : pystr) : option bytes :=
  match s with
  | [] => Some []
  | c :: s' =>
      match cp1252_encode_char c with
      | Some b => cons b <$> cp1252_encode s'
      | None => None
      end
  end.

Fixpoint cp1252_decode (bs : bytes) : option pystr :=
  match bs with
  | [] => Some []
  | b :: bs' =>
      match cp1252_decode_byte b with
      | Some c => cons c <$> cp1252_decode bs'
      | None => None
      end
  end.

(** *** utf-8 (strict error handler) *)

Definition is_cont (b : N) : bool := (0x80 <=? b) && (b <=? 0xBF).
Definition in_range (lo hi b : N) : bool := (lo <=? b) && (b <=? hi).

Definition utf8_encode_char (c : N) : option bytes :=
  if c <? 0x80 then Some [c]
  else if c <? 0x800 then Some [0xC0 + c / 64; 0x80 + c mod 64]
  else if c <? 0x10000 then
    if in_range 0xD800 0xDFFF c then None
    else Some [0xE0 + c / 4096; 0x80 + (c / 64) mod 64; 0x80 + c mod 64]
  else if c <? 0x110000 then
    Some [0xF0 + c / 262144; 0x80 + (c / 4096) mod 64;
          0x80 + (c / 64) mod 64; 0x80 + c mod 64]
  else None.

Fixpoint utf8_encode (s : pystr) : option bytes :=
  match s with
  | [] => Some []
  | c :: s' =>
      match utf8_encode_char c with
      | Some bs => app bs <$> utf8_encode s'
      | None => None
      end
  end.

(** [bs.decode('utf-8')]: well-formed sequences only (no overlong
    forms, no surrogates, nothing above U+10FFFF); [None] stands for
    [UnicodeDecodeError]. *)
Fixpoint utf8_decode (bs : bytes) : option pystr :=
  match bs with
  | [] => Some []
  | b0 :: r0 =>
      if b0 <? 0x80 then cons b0 <$> utf8_decode r0
      else if in_range 0xC2 0xDF b0 then
        match r0 with
        | b1 :: r1 =>
            if is_cont b1
            then cons ((b0 - 0xC0) * 64 + (b1 - 0x80)) <$> utf8_decode r1
            else None
        | _ => None
        end
      else if in_range 0xE0 0xEF b0 then
        match r0 with
        | b1 :: b2 :: r2 =>
            if in_range (if b0 =? 0xE0 then 0xA0 else 0x80)
                        (if b0 =? 0xED then 0x9F else 0xBF) b1
               && is_cont b2
            then cons ((b0 - 0xE0) * 4096 + (b1 - 0x80) * 64 + (b2 - 0x80))
                   <$> utf8_decode r2
            else None
        | _ => None
        end
      else if in_range 0xF0 0xF4 b0 then
        match r0 with
        | b1 :: b2 :: b3 :: r3 =>
            if in_range (if b0 =? 0xF0 then 0x90 else 0x80)
                        (if b0 =? 0xF4 then 0x8F else 0xBF) b1
               && is_cont b2 && is_cont b3
            then cons ((b0 - 0xF0) * 262144 + (b1 - 0x80) * 4096
                       + (b2 - 0x80) * 64 + (b3 - 0x80))
                   <$> utf8_decode r3
            else None
        | _ => None
        end
      else None
  end.

Definition encode (e : Encoding) (s : pystr) : option bytes :=
  match e with UTF8 => utf8_encode s | CP1252 => cp1252_encode s end.

Definition decode (e : Encoding) (bs : bytes) : option pystr :=
  match e with UTF8 => utf8_decode bs | CP1252 => cp1252_decode bs end.

End Codec.

(** ** Exceptions and results *)

(** The exceptions that the modelled code can raise.  [NotModelled] is not a
    Python exception: it marks an input outside the fragment of Jinja2 that
    the embedding covers (see [Jinja2]). *)
Inductive PyExc :=
| TypeError
| FileNotFoundError
| UnicodeDecodeError
| UnicodeEncodeError
| TemplateNotFound (name : string)
| TemplateSyntaxError
| UndefinedError
| YAMLError
| ExecError
| SystemExit (code : Z)
| NotModelled.

Inductive Result (A : Type) :=
| Ok (a : A)
| Raise (e : PyExc).
Arguments Ok {A} a.
Arguments Raise {A} e.

(** [except IOError]: of the exceptions above only [FileNotFoundError] is an
    [OSError]; [UnicodeDecodeError] is a [ValueError]. *)
Definition is_IOError (e : PyExc) : bool :=
  match e with FileNotFoundError => true | _ => false end.

(** ** Values of the interpreter *)

(** Scalars of a parsed data document; [str_of] is Python's [str()]. *)
Inductive Value :=
| VStr (s : pystr)
| VInt (z : Z)
| VBool (b : bool)
| VNone.

(** A Rocq string literal read as Python text (code points below 256). *)
Definition py (s : string) : pystr :=
  map N_of_ascii (list_ascii_of_string s).

Definition str_of (v : Value) : pystr :=
  match v with
  | VStr s => s
  | VInt z => py (DecimalString.NilZero.string_of_int (Z.to_int z))
  | VBool true => py "True"
  | VBool false => py "False"
  | VNone => py "None"
  end.

(** The template context: a dictionary with text keys. *)
Abbreviation Context := (gmap pystr Value).

(** Objects bound at the top level of a loaded Python module.
    [inspect.isfunction] holds of [PyFunction] only: classes, built-in
    functions and other values are not Python functions. *)
Inductive PyObj :=
| PyFunction (module_ name : string)
| PyBuiltin (name : string)
| PyClass (name : string)
| PyOther.

Definition isfunction (o : PyObj) : bool :=
  match o with PyFunction _ _ => true | _ => false end.

(** [jinja2.Undefined] and [jinja2.StrictUndefined]. *)
Inductive UndefinedClass := Undefined | StrictUndefined.

(** [class FilePathLoader]: the two attributes set by [__init__]. *)
Record FilePathLoader := {
  loader_cwd : string;
  loader_encoding : Encoding
}.

(** Values stored in the keyword dictionary [j2_env_params]. *)
Inductive ParamVal :=
| PBool (b : bool)
| PUndefined (u : UndefinedClass)
| PExtensions (exts : list string)
| PLoader (l : FilePathLoader).

(** ** The world: files, process state and interpreter state *)

Inductive OpenMode := ModeR | ModeW.

(** What the program does to the outside, in the order it does it.  Every
    call is recorded when it starts, also one that fails: a call of [open],
    a call of [FilePathLoader.get_source] (the loading of a template) and
    a call of [imp.load_source] (the loading of an extension file). *)
Inductive Event :=
| EvOpen (path : option string) (mode : OpenMode)
| EvGetSource (template : string)
| EvLoadSource (pathname : string).

Record World := {
  fs : gmap string bytes;
      (** files by absolute path *)
  os_cwd : string;
      (** the working directory of the process, [os.getcwd()] *)
  preferred_encoding : Encoding;
      (** what [open] uses when no [encoding] is passed:
          [locale.getpreferredencoding(False)] *)
  os_linesep : pystr;
      (** what text-mode writing puts for a line feed *)
  init_defaults : gmap string ParamVal;
      (** the dictionary object that is the default value of the parameter
          [j2_env_params] of [Jinja2TemplateRenderer.__init__]: created once,
          when the [def] is executed, and shared by every call that does
          not pass the argument *)
  sys_modules : gmap string (gmap string PyObj);
      (** [sys.modules]: module name to module namespace *)
  stdin : bytes;
  stdout : bytes;
  trace : list Event
}.

Definition set_fs (f : gmap string bytes → gmap string bytes) (w : World) :=
  {| fs := f (fs w); os_cwd := os_cwd w;
     preferred_encoding := preferred_encoding w; os_linesep := os_linesep w;
     init_defaults := init_defaults w; sys_modules := sys_modules w;
     stdin := stdin w; stdout := stdout w; trace := trace w |}.

Definition set_init_defaults (d : gmap string ParamVal) (w : World) :=
  {| fs := fs w; os_cwd := os_cwd w;
     preferred_encoding := preferred_encoding w; os_linesep := os_linesep w;
     init_defaults := d; sys_modules := sys_modules w;
     stdin := stdin w; stdout := stdout w; trace := trace w |}.

Definition set_sys_modules (m : gmap string (gmap string PyObj)) (w : World) :=
  {| fs := fs w; os_cwd := os_cwd w;
     preferred_encoding := preferred_encoding w; os_linesep := os_linesep w;
     init_defaults := init_defaults w; sys_modules := m;
     stdin := stdin w; stdout := stdout w; trace := trace w |}.

Definition set_stdout (o : bytes) (w : World) :=
  {| fs := fs w; os_cwd := os_cwd w;
     preferred_encoding := preferred_encoding w; os_linesep := os_linesep w;
     init_defaults := init_defaults w; sys_modules := sys_modules w;
     stdin := stdin w; stdout := o; trace := trace w |}.

Definition log (e : Event) (w : World) :=
  {| fs := fs w; os_cwd := os_cwd w;
     preferred_encoding := preferred_encoding w; os_linesep := os_linesep w;
     init_defaults := init_defaults w; sys_modules := sys_modules w;
     stdin := stdin w; stdout := stdout w; trace := trace w ++ [e] |}.

(** ** A state and exception monad

    A computation takes a world and gives a result and the world after it;
    the effects of a computation that raises stay. *)
Definition M (A : Type) : Type := World → Result A * World.

Definition ret {A} (a : A) : M A := λ w, (Ok a, w).
Definition raise {A} (e : PyExc) : M A := λ w, (Raise e, w).

Definition bind {A B} (m : M A) (k : A → M B) : M B :=
  λ w, match m w with
       | (Ok a, w') => k a w'
       | (Raise e, w') => (Raise e, w')
       end.

Notation "x <- m ;; k" := (bind m (λ x, k))
  (at level 20, m at level 99, k at level 200, only parsing).
Notation "m ;;; k" := (bind m (λ _, k))
  (at level 100, k at level 200, right associativity, only parsing).

Definition lift {A} (r : Result A) : M A := λ w, (r, w).
Definition lift_opt {A} (e : PyExc) (o : option A) : M A :=
  λ w, (match o with Some a => Ok a | None => Raise e end, w).
Definition gets {A} (f : World → A) : M A := λ w, (Ok (f w), w).
Definition modify (f : World → World) : M unit := λ w, (Ok tt, f w).

(** [try: m  except <exceptions accepted by sel>: raise e'] *)
Definition try_except {A} (m : M A) (sel : PyExc → bool) (e' : PyExc) : M A :=
  λ w, match m w with
       | (Raise e, w') => (Raise (if sel e then e' else e), w')
       | r => r
       end.

(** [for x in xs: obj = body(obj, x)]: a loop that updates one object. *)
Fixpoint for_each {A B} (xs : list A) (body : B → A → M B) (obj : B) : M B :=
  match xs with
  | [] => ret obj
  | x :: xs' => obj' <- body obj x ;; for_each xs' body obj'
  end.

(** ** Paths and files *)

Module Os.

Definition startswith_sep (p : string) : bool :=
  match p with String "/" _ => true | _ => false end.

Fixpoint endswith_sep (p : string) : bool :=
  match p with
  | EmptyString => false
  | String c EmptyString => if Ascii.eqb c "/" then true else false
  | String _ p' => endswith_sep p'
  end.

(** [os.path.join(a, b)] of [posixpath]. *)
Definition path_join (a b : string) : string :=
  if startswith_sep b then b
  else if String.eqb a "" || endswith_sep a then (a ++ b)%string
  else (a ++ "/" ++ b)%string.

(** The file a path names when the process opens it: a relative path is
    taken from the working directory of the process. *)
Definition resolve (w : World) (p : string) : string :=
  path_join (os_cwd w) p.

(** Reading in text mode translates ["\r\n"] and ["\r"] to ["\n"]. *)
Fixpoint universal_newlines (s : pystr) : pystr :=
  match s with
  | [] => []
  | c :: r =>
      if c =? CR then
        match r with
        | d :: r' =>
            if d =? LF then LF :: universal_newlines r'
            else LF :: universal_newlines r
        | [] => [LF]
        end
      else c :: universal_newlines r
  end.

(** Writing in text mode puts [os.linesep] for each ["\n"]. *)
Definition linesep_out (sep : pystr) (s : pystr) : pystr :=
  flat_map (λ c, if c =? LF then sep else [c]) s.

(** [with open(path, 'rt', encoding=enc) as f: f.read()].
    [path = None] is [open(None)], a [TypeError]; [enc = None] is an
    [open] without the [encoding] argument. *)
Definition read_text (path : option string) (enc : option Encoding) : M pystr :=
  modify (log (EvOpen path ModeR)) ;;;
  p <- lift_opt TypeError path ;;
  w <- gets id ;;
  bs <- lift_opt FileNotFoundError (fs w !! resolve w p) ;;
  s <- lift_opt UnicodeDecodeError
         (Codec.decode (default (preferred_encoding w) enc) bs) ;;
  ret (universal_newlines s).

(** Reading a file as bytes (the import machinery reads source files so). *)
Definition read_bytes (path : string) : M bytes :=
  modify (log (EvOpen (Some path) ModeR)) ;;;
  w <- gets id ;;
  lift_opt FileNotFoundError (fs w !! resolve w path).

(** [open(path, 'wt', encoding=enc)]: the file is created or emptied. *)
Definition open_wt (path : string) : M unit :=
  modify (log (EvOpen (Some path) ModeW)) ;;;
  w <- gets id ;;
  modify (set_fs <[resolve w path := []]>).

(** [f.write(s)] on the file opened by [open_wt], followed by the close
    that writes the buffer out. *)
Definition write_text (path : string) (enc : Encoding) (s : pystr) : M unit :=
  w <- gets id ;;
  bs <- lift_opt UnicodeEncodeError
          (Codec.encode enc (linesep_out (os_linesep w) s)) ;;
  modify (set_fs <[resolve w path := bs]>).

End Os.

(** ** The template engine (jinja2), as far as the program relies on it

    Jinja2 is not part of the repository.  The embedding covers the
    fragment of its template language that the properties of the program
    are about: literal text and print statements [{{ name }}] of a plain
    variable.  Everything else (block tags, comments, whitespace control,
    filters, literals, the engine's own global names) is answered with
    [NotModelled], so that no statement below says anything about it. *)
Module Jinja2.

Record Environment := {
  keep_trailing_newline : bool;
  undefined : UndefinedClass;
  extensions : list string;
  loader : option FilePathLoader;
  filters : gmap string PyObj;
  tests : gmap string PyObj
}.

(** [jinja2.Environment] called with the dictionary as its keyword
    arguments: a key that is absent takes the
    default of the keyword argument ([keep_trailing_newline=False],
    [undefined=Undefined], [extensions=()], [loader=None]); the filter
    and test registries start as copies of the engine's defaults. *)
Definition new_Environment (default_filters default_tests : gmap string PyObj)
    (params : gmap string ParamVal) : Environment :=
  {| keep_trailing_newline :=
       match params !! "keep_trailing_newline"%string with
       | Some (PBool b) => b | _ => false end;
     undefined :=
       match params !! "undefined"%string with
       | Some (PUndefined u) => u | _ => Undefined end;
     extensions :=
       match params !! "extensions"%string with
       | Some (PExtensions l) => l | _ => [] end;
     loader :=
       match params !! "loader"%string with
       | Some (PLoader l) => Some l | _ => None end;
     filters := default_filters;
     tests := default_tests |}.

Definition set_filters (f : gmap string PyObj) (env : Environment) :=
  {| keep_trailing_newline := keep_trailing_newline env;
     undefined := undefined env; extensions := extensions env;
     loader := loader env; filters := f; tests := tests env |}.

Definition set_tests (t : gmap string PyObj) (env : Environment) :=
  {| keep_trailing_newline := keep_trailing_newline env;
     undefined := undefined env; extensions := extensions env;
     loader := loader env; filters := filters env; tests := t |}.

(** *** Lexing *)

Inductive Node :=
| Data (text : pystr)
| Output (name : pystr).

Definition lbrace : N := 123.
Definition rbrace : N := 125.
Definition percent : N := 37.
Definition hash : N := 35.

(** The lexer first rewrites every line break (["\r\n"], ["\r"], ["\n"])
    as ["\n"]; unless [keep_trailing_newline] is set it then drops one
    line break at the very end of the source. *)
Definition normalize_newlines : pystr → pystr := Os.universal_newlines.

Definition strip_trailing_newline (s : pystr) : pystr :=
  match rev s with
  | c :: r => if c =? LF then rev r else s
  | [] => s
  end.

Definition preprocess (keep : bool) (source : pystr) : pystr :=
  let s := normalize_newlines source in
  if keep then s else strip_trailing_newline s.

Definition is_space (c : N) : bool :=
  (c =? 32) || ((9 <=? c) && (c <=? 13)).

Definition is_name_start (c : N) : bool :=
  ((65 <=? c) && (c <=? 90)) || ((97 <=? c) && (c <=? 122)) || (c =? 95).

Definition is_name_char (c : N) : bool :=
  is_name_start c || ((48 <=? c) && (c <=? 57)).

Fixpoint lstrip (s : pystr) : pystr :=
  match s with
  | c :: r => if is_space c then lstrip r else s
  | [] => []
  end.

Definition strip (s : pystr) : pystr := rev (lstrip (rev (lstrip s))).

Definition is_name (s : pystr) : bool :=
  match s with
  | c :: r => is_name_start c && forallb is_name_char r
  | [] => false
  end.

(** Names that are not looked up in the context alone: keywords and
    constants of the expression language, the engine's default globals
    and those of the [i18n] extension, and [self]. *)
Definition reserved : list pystr :=
  map py ["true"; "false"; "none"; "True"; "False"; "None";
          "and"; "or"; "not"; "if"; "else"; "in"; "is";
          "range"; "dict"; "lipsum"; "cycler"; "joiner"; "namespace";
          "_"; "gettext"; "ngettext"; "pgettext"; "npgettext";
          "self"]%string.

Definition is_reserved (s : pystr) : bool :=
  existsb (λ r, bool_decide (r = s)) reserved.

(** What stands between [{{] and [}}]. *)
Definition parse_expression (inner : pystr) : Result pystr :=
  let e := strip inner in
  match e with
  | [] => Raise TemplateSyntaxError
  | _ => if is_name e && negb (is_reserved e) then Ok e
         else Raise NotModelled
  end.

Definition cons_data (c : N) (ns : list Node) : list Node :=
  match ns with
  | Data d :: ns' => Data (c :: d) :: ns'
  | _ => Data [c] :: ns
  end.

Definition fmap_result {A B} (f : A → B) (r : Result A) : Result B :=
  match r with Ok a => Ok (f a) | Raise e => Raise e end.

(** [lex_data] reads literal text up to the next [{{]; [lex_var inner]
    reads a print statement up to its [}}], [inner] holding the
    characters read so far in reverse.  A [{%] or [{#] leaves the
    fragment; a print statement that is not closed is a syntax error. *)
Fixpoint lex_data (src : pystr) : Result (list Node) :=
  match src with
  | [] => Ok []
  | c :: rest =>
      if c =? lbrace then
        match rest with
        | d :: rest' =>
            if d =? lbrace then lex_var rest' []
            else if (d =? percent) || (d =? hash) then Raise NotModelled
            else fmap_result (cons_data c) (lex_data rest)
        | [] => fmap_result (cons_data c) (lex_data rest)
        end
      else fmap_result (cons_data c) (lex_data rest)
  end
with lex_var (src : pystr) (inner : pystr) {struct src} : Result (list Node) :=
  match src with
  | [] => Raise TemplateSyntaxError
  | c :: rest =>
      if c =? rbrace then
        match rest with
        | d :: rest' =>
            if d =? rbrace then
              match parse_expression (rev inner) with
              | Ok name => fmap_result (cons (Output name)) (lex_data rest')
              | Raise e => Raise e
              end
            else lex_var rest (c :: inner)
        | [] => Raise TemplateSyntaxError
        end
      else lex_var rest (c :: inner)
  end.

(** *** Rendering *)

(** A name that the context lacks evaluates to an undefined object:
    printing a [jinja2.Undefined] gives the empty text, printing a
    [jinja2.StrictUndefined] raises [UndefinedError]. *)
Fixpoint render_nodes (u : UndefinedClass) (ctx : Context) (ns : list Node)
    : Result pystr :=
  match ns with
  | [] => Ok []
  | Data d :: ns' => fmap_result (app d) (render_nodes u ctx ns')
  | Output name :: ns' =>
      match ctx !! name with
      | Some v => fmap_result (app (str_of v)) (render_nodes u ctx ns')
      | None =>
          match u with
          | Undefined => render_nodes u ctx ns'
          | StrictUndefined => Raise UndefinedError
          end
      end
  end.

(** A compiled template: its nodes and the environment it belongs to. *)
Record Template := {
  nodes : list Node;
  environment : Environment
}.

(** [Environment.from_string(source)]: lexing and parsing. *)
Definition compile (env : Environment) (source : pystr) : Result Template :=
  fmap_result (λ ns, {| nodes := ns; environment := env |})
    (lex_data (preprocess (keep_trailing_newline env) source)).

(** [Template.render(context)] *)
Definition render (t : Template) (ctx : Context) : Result pystr :=
  render_nodes (undefined (environment t)) ctx (nodes t).

End Jinja2.

(** ** The program: [j2cli/cli.py] *)

(** The namespace that [parser.parse_args] returns, one field for each
    [dest] of the parser built in [render_command]. *)
Module args.
Record Namespace := {
  filters : list string;
  tests : list string;
  customize : option string;
  undefined : bool;
  output_file : option string;
  template : string;
  data : option string
}.
End args.

(** What the program takes from outside the repository and the embedding
    does not look into. *)
Record Externals := {
  parse_args : list string → Result args.Namespace;
      (** [argparse] with the seven arguments that [render_command]
          declares; a rejected command line is [SystemExit 2] *)
  yaml_load : pystr → Result Context;
      (** [yaml.load(f, Loader=Loader)] on the text of the stream *)
  py_exec : bytes → Result (list (string * PyObj));
      (** running the source of a module: the top-level names it binds,
          in the order of binding *)
  DEFAULT_FILTERS : gmap string PyObj;
  DEFAULT_TESTS : gmap string PyObj
      (** the filters and tests every [jinja2.Environment] starts with *)
}.

(** [d.setdefault(k, v)] *)
Definition setdefault {V} (k : string) (v : V) (d : gmap string V) : gmap string V :=
  match d !! k with
  | Some _ => d
  | None => <[k := v]> d
  end.

(** [d.update(other)] *)
Definition update {V} (other d : gmap string V) : gmap string V := other ∪ d.

(** *** [class FilePathLoader(jinja2.BaseLoader)] *)

(** [FilePathLoader.__init__(self, cwd, encoding='utf-8')] *)
Definition FilePathLoader_init (cwd : string) (encoding : option Encoding)
    : FilePathLoader :=
  {| loader_cwd := cwd; loader_encoding := default UTF8 encoding |}.

(** [FilePathLoader.get_source(self, environment, template)].  The result
    is [(contents, filename, uptodate)]; [uptodate] is the constant
    [lambda: False], given here by the value it returns.  [filename] is
    computed from [self.cwd], the file that is opened is [template]. *)
Definition FilePathLoader_get_source (self : FilePathLoader)
    (environment : Jinja2.Environment) (template : string)
    : M (pystr * string * bool) :=
  modify (log (EvGetSource template)) ;;;
  let filename := Os.path_join (loader_cwd self) template in
  contents <- try_except
                (Os.read_text (Some template) (Some (loader_encoding self)))
                is_IOError (TemplateNotFound template) ;;
  let uptodate := false in
  ret (contents, filename, uptodate).

(** [Environment.get_template(name)]: the source comes from the loader of
    the environment and is compiled; without a loader the call is a
    [TypeError]. *)
Definition get_template (env : Jinja2.Environment) (name : string)
    : M Jinja2.Template :=
  l <- lift_opt TypeError (Jinja2.loader env) ;;
  src <- FilePathLoader_get_source l env name ;;
  lift (Jinja2.compile env (fst (fst src))).

(** *** [class Jinja2TemplateRenderer(object)] *)

Record Jinja2TemplateRenderer := {
  encoding : Encoding;
  _env : Jinja2.Environment
}.

Definition ENABLED_EXTENSIONS : list string :=
  ["jinja2.ext.i18n"; "jinja2.ext.do"; "jinja2.ext.loopcontrols"]%string.

Definition MODULE_NAME : string := "imported-funcs".

Section Program.

Variable X : Externals.

(** [Jinja2TemplateRenderer.__init__(self, cwd, allow_undefined,
    encoding='utf-8', j2_env_params={})].  [j2_env_params = None] is a
    call without the argument: the parameter is then bound to the one
    default dictionary kept in the world, and the four [setdefault]s
    act on that object. *)
Definition Jinja2TemplateRenderer_init (cwd : string) (allow_undefined : bool)
    (encoding : option Encoding) (j2_env_params : option (gmap string ParamVal))
    : M Jinja2TemplateRenderer :=
  w <- gets id ;;
  let d0 := default (init_defaults w) j2_env_params in
  let d1 := setdefault "keep_trailing_newline" (PBool true) d0 in
  let d2 := setdefault "undefined"
              (PUndefined (if allow_undefined then Undefined
                           else StrictUndefined)) d1 in
  let d3 := setdefault "extensions" (PExtensions ENABLED_EXTENSIONS) d2 in
  let d4 := setdefault "loader" (PLoader (FilePathLoader_init cwd None)) d3 in
  (match j2_env_params with
   | None => modify (set_init_defaults d4)
   | Some _ => ret tt
   end) ;;;
  ret {| encoding := default UTF8 encoding;
         _env := Jinja2.new_Environment (DEFAULT_FILTERS X) (DEFAULT_TESTS X) d4 |}.

Definition register_filters (self : Jinja2TemplateRenderer)
    (filters : gmap string PyObj) : Jinja2TemplateRenderer :=
  {| encoding := encoding self;
     _env := Jinja2.set_filters (update filters (Jinja2.filters (_env self)))
               (_env self) |}.

Definition register_tests (self : Jinja2TemplateRenderer)
    (tests : gmap string PyObj) : Jinja2TemplateRenderer :=
  {| encoding := encoding self;
     _env := Jinja2.set_tests (update tests (Jinja2.tests (_env self)))
               (_env self) |}.

(** The attributes every module object has; none is a function. *)
Definition module_attrs : gmap string PyObj :=
  {[ "__name__"%string := PyOther; "__file__"%string := PyOther;
     "__builtins__"%string := PyOther ]}.

(** [imp.load_source(name, pathname)].  When [sys.modules] has a module
    of that name the source is run in the namespace of that module
    object ([module = _exec(spec, sys.modules[name])] in [Lib/imp.py]),
    otherwise in the namespace of a new one; the module is kept in
    [sys.modules] under [name].  The result is the namespace after the
    run. *)
Definition imp_load_source (name pathname : string) : M (gmap string PyObj) :=
  modify (log (EvLoadSource pathname)) ;;;
  code <- Os.read_bytes pathname ;;
  bindings <- lift (py_exec X code) ;;
  w <- gets id ;;
  let before := default module_attrs (sys_modules w !! name) in
  let after := foldl (λ ns b, <[fst b := snd b]> ns) before bindings in
  modify (set_sys_modules (<[name := after]> (sys_modules w))) ;;;
  ret after.

(** [Jinja2TemplateRenderer._import_functions(self, filename)]:
    [inspect.getmembers(m)] lists the attributes of the module with
    their values, the comprehension keeps those for which
    [inspect.isfunction] holds. *)
Definition _import_functions (self : Jinja2TemplateRenderer) (filename : string)
    : M (gmap string PyObj) :=
  m <- imp_load_source MODULE_NAME filename ;;
  ret (filter (λ member, isfunction (snd member) = true) m).

Definition import_filters (self : Jinja2TemplateRenderer) (filename : string)
    : M Jinja2TemplateRenderer :=
  fs <- _import_functions self filename ;;
  ret (register_filters self fs).

Definition import_tests (self : Jinja2TemplateRenderer) (filename : string)
    : M Jinja2TemplateRenderer :=
  fs <- _import_functions self filename ;;
  ret (register_tests self fs).

(** [Jinja2TemplateRenderer.render(self, template_path, context)] *)
Definition render (self : Jinja2TemplateRenderer) (template_path : string)
    (context : Context) : M bytes :=
  t <- get_template (_env self) template_path ;;
  s <- lift (Jinja2.render t context) ;;
  lift_opt UnicodeEncodeError (Codec.encode (encoding self) s).

(** *** [render_command(cwd, stdin, argv)] *)

(** The truth value of [args.output_file]: [None] and the empty string
    are false. *)
Definition truthy (o : option string) : bool :=
  match o with
  | Some p => negb (String.eqb p "")
  | None => false
  end.

Definition render_command (cwd : string) (stdin : bytes) (argv : list string)
    : M bytes :=
  a <- lift (parse_args X argv) ;;
  (* Read YAML file and read context data *)
  text <- Os.read_text (args.data a) None ;;
  context <- lift (yaml_load X text) ;;
  (* Renderer *)
  renderer <- Jinja2TemplateRenderer_init cwd (args.undefined a)
                (Some CP1252) None ;;
  (* Filters, Tests *)
  renderer <- for_each (args.filters a) import_filters renderer ;;
  renderer <- for_each (args.tests a) import_tests renderer ;;
  (* Render *)
  result <- render renderer (args.template a) context ;;
  (* -o *)
  if truthy (args.output_file a) then
    let output_file := default ""%string (args.output_file a) in
    Os.open_wt output_file ;;;
    s <- lift_opt UnicodeDecodeError (Codec.decode UTF8 result) ;;
    Os.write_text output_file UTF8 s ;;;
    ret []
  else
    (* Finish *)
    ret result.

(** *** The script: [if __name__ == '__main__'] *)

Definition is_SystemExit (e : PyExc) : bool :=
  match e with SystemExit _ => true | _ => false end.

Definition main (argv : list string) : M unit :=
  w <- gets id ;;
  output <- try_except (render_command (os_cwd w) (stdin w) argv)
              is_SystemExit (SystemExit 1) ;;
  modify (λ w', set_stdout (stdout w' ++ output) w').

End Program.

(** ** Stand-ins for the external parts, for running the program

    The statements about the program hold for every [Externals].  To run
    the program on concrete inputs the following small stand-ins are used:
    a command-line parser for plain command lines (no abbreviated options,
    no [--opt=value]), a reader for one-level YAML documents with plain
    scalars, and the effect of the interpreter on two given source files. *)
Module Demo.

Definition is_flag (t : string) : bool :=
  match t with
  | String "-" (String _ _) => true
  | _ => false
  end.

Inductive Mode :=
| Top | InFilters (n : nat) | InTests (n : nat) | AfterO | AfterCustomize.

Record State := {
  st_mode : Mode;
  st_filters : list string;
  st_tests : list string;
  st_customize : option string;
  st_undefined : bool;
  st_output_file : option string;
  st_positionals : list string;
  st_in_chunk : bool
      (** the previous token was a positional: the two positionals have
          to follow one another *)
}.

Definition initial : State :=
  {| st_mode := Top; st_filters := []; st_tests := []; st_customize := None;
     st_undefined := false; st_output_file := None; st_positionals := [];
     st_in_chunk := false |}.

Definition at_top (t : string) (s : State) : option State :=
  let s' m := {| st_mode := m; st_filters := st_filters s;
                 st_tests := st_tests s; st_customize := st_customize s;
                 st_undefined := st_undefined s;
                 st_output_file := st_output_file s;
                 st_positionals := st_positionals s; st_in_chunk := false |} in
  if String.eqb t "--undefined" then
    Some {| st_mode := Top; st_filters := st_filters s;
            st_tests := st_tests s; st_customize := st_customize s;
            st_undefined := true; st_output_file := st_output_file s;
            st_positionals := st_positionals s; st_in_chunk := false |}
  else if String.eqb t "--filters" then
    Some {| st_mode := InFilters 0; st_filters := [];
            st_tests := st_tests s; st_customize := st_customize s;
            st_undefined := st_undefined s;
            st_output_file := st_output_file s;
            st_positionals := st_positionals s; st_in_chunk := false |}
  else if String.eqb t "--tests" then
    Some {| st_mode := InTests 0; st_filters := st_filters s;
            st_tests := []; st_customize := st_customize s;
            st_undefined := st_undefined s;
            st_output_file := st_output_file s;
            st_positionals := st_positionals s; st_in_chunk := false |}
  else if String.eqb t "-o" then Some (s' AfterO)
  else if String.eqb t "--customize" then Some (s' AfterCustomize)
  else if is_flag t then None
  else
    match st_positionals s, st_in_chunk s with
    | _ :: _, false => None
    | ps, _ =>
        Some {| st_mode := Top; st_filters := st_filters s;
                st_tests := st_tests s; st_customize := st_customize s;
                st_undefined := st_undefined s;
                st_output_file := st_output_file s;
                st_positionals := ps ++ [t]; st_in_chunk := true |}
    end.

Definition step (t : string) (s : State) : option State :=
  match st_mode s with
  | Top => at_top t s
  | AfterO =>
      if is_flag t then None
      else Some {| st_mode := Top; st_filters := st_filters s;
                   st_tests := st_tests s; st_customize := st_customize s;
                   st_undefined := st_undefined s; st_output_file := Some t;
                   st_positionals := st_positionals s; st_in_chunk := false |}
  | AfterCustomize =>
      if is_flag t then None
      else Some {| st_mode := Top; st_filters := st_filters s;
                   st_tests := st_tests s; st_customize := Some t;
                   st_undefined := st_undefined s;
                   st_output_file := st_output_file s;
                   st_positionals := st_positionals s; st_in_chunk := false |}
  | InFilters n =>
      if is_flag t then match n with O => None | _ => at_top t s end
      else Some {| st_mode := InFilters (S n);
                   st_filters := st_filters s ++ [t];
                   st_tests := st_tests s; st_customize := st_customize s;
                   st_undefined := st_undefined s;
                   st_output_file := st_output_file s;
                   st_positionals := st_positionals s; st_in_chunk := false |}
  | InTests n =>
      if is_flag t then match n with O => None | _ => at_top t s end
      else Some {| st_mode := InTests (S n); st_filters := st_filters s;
                   st_tests := st_tests s ++ [t];
                   st_customize := st_customize s;
                   st_undefined := st_undefined s;
                   st_output_file := st_output_file s;
                   st_positionals := st_positionals s; st_in_chunk := false |}
  end.

Fixpoint run (argv : list string) (s : State) : option State :=
  match argv with
  | [] => Some s
  | t :: argv' => match step t s with Some s' => run argv' s' | None => None end
  end.

Definition finish (s : State) : option args.Namespace :=
  let ns t d := {| args.filters := st_filters s; args.tests := st_tests s;
                   args.customize := st_customize s;
                   args.undefined := st_undefined s;
                   args.output_file := st_output_file s;
                   args.template := t; args.data := d |} in
  match st_mode s with
  | AfterO | AfterCustomize | InFilters O | InTests O => None
  | _ =>
      match st_positionals s with
      | [t] => Some (ns t None)
      | [t; d] => Some (ns t (Some d))
      | _ => None
      end
  end.

Definition plain_parse_args (argv : list string) : Result args.Namespace :=
  match run argv initial ≫= finish with
  | Some a => Ok a
  | None => Raise (SystemExit 2)
  end.

(** One-level YAML: the flow mapping [{}], or lines [key: value] with
    plain scalars, read as text. *)
Fixpoint lines (s acc : pystr) : list pystr :=
  match s with
  | [] => match acc with [] => [] | _ => [rev acc] end
  | c :: r => if c =? LF then rev acc :: lines r [] else lines r (c :: acc)
  end.

Fixpoint key_value (l : pystr) : option (pystr * pystr) :=
  match l with
  | [] => None
  | c :: r =>
      if c =? 58 then
        match r with
        | d :: v => if d =? 32 then Some ([], v) else None
        | [] => None
        end
      else (λ kv, (c :: fst kv, snd kv)) <$> key_value r
  end.

Fixpoint mapping (ls : list pystr) : option Context :=
  match ls with
  | [] => Some ∅
  | l :: ls' =>
      kv ← key_value l;
      m ← mapping ls';
      Some (<[fst kv := VStr (snd kv)]> m)
  end.

Definition flat_yaml_load (text : pystr) : Result Context :=
  if bool_decide (text = py "{}") || bool_decide (text = py "{}" ++ [LF])
  then Ok ∅
  else match mapping (lines text []) with
       | Some m => Ok m
       | None => Raise YAMLError
       end.

Definition filters_py : bytes :=
  py "def shout(s): return s.upper() + '!'".
Definition tests_py : bytes :=
  py "def is_loud(s): return s.isupper()".

Definition two_files_exec (code : bytes) : Result (list (string * PyObj)) :=
  if bool_decide (code = filters_py)
  then Ok [("shout"%string, PyFunction MODULE_NAME "shout")]
  else if bool_decide (code = tests_py)
  then Ok [("is_loud"%string, PyFunction MODULE_NAME "is_loud")]
  else Raise ExecError.

Definition X : Externals :=
  {| parse_args := plain_parse_args; yaml_load := flat_yaml_load;
     py_exec := two_files_exec;
     DEFAULT_FILTERS := {[ "upper"%string := PyFunction "jinja2.filters" "do_upper" ]};
     DEFAULT_TESTS := {[ "defined"%string := PyFunction "jinja2.tests" "test_defined" ]} |}.

(** A process that has just started, on a system with the given
    preferred encoding and files, in the directory [/work]. *)
Definition start (enc : Encoding) (files : gmap string bytes) : World :=
  {| fs := files; os_cwd := "/work"; preferred_encoding := enc;
     os_linesep := [LF]; init_defaults := ∅; sys_modules := ∅;
     stdin := []; stdout := []; trace := [] |}.

Definition hello_j2 : bytes := py "Hello {{ name }}!" ++ [LF].

Definition files : gmap string bytes :=
  {[ "/work/hello.j2"%string := hello_j2;
     "/work/empty.yml"%string := py "{}";
     "/work/world.yml"%string := py "name: World" ++ [LF];
     "/work/filters.py"%string := filters_py;
     "/work/tests.py"%string := tests_py ]}.

Definition w0 : World := start UTF8 files.

(** Parsed command lines. *)
Definition namespace (template : string) (data : option string)
    (undefined : bool) (output_file : option string)
    (filters tests : list string) : args.Namespace :=
  {| args.filters := filters; args.tests := tests; args.customize := None;
     args.undefined := undefined; args.output_file := output_file;
     args.template := template; args.data := data |}.

Definition argv_full : list string :=
  ["hello.j2"; "world.yml"; "--filters"; "filters.py";
   "--tests"; "tests.py"]%string.

Definition argv_strict : list string := ["hello.j2"; "empty.yml"]%string.
Definition argv_permissive : list string :=
  ["--undefined"; "hello.j2"; "empty.yml"]%string.

Definition hello_nothing : bytes := py "Hello !" ++ [LF].

(** An environment as [jinja2.Environment()] builds it. *)
Definition plain_env : Jinja2.Environment := Jinja2.new_Environment ∅ ∅ ∅.

(** A project in [/proj], used by a process that runs in [/work]. *)
Definition proj_files : gmap string bytes :=
  {[ "/proj/page.j2"%string := py "project page" ]}.
Definition proj_and_work_files : gmap string bytes :=
  {[ "/proj/page.j2"%string := py "project page";
     "/work/page.j2"%string := py "some other page" ]}.

(** A data file with the UTF-8 bytes of [name: é], and a template that
    prints the name. *)
Definition accent_files : gmap string bytes :=
  {[ "/work/name.j2"%string := py "{{ name }}";
     "/work/accent.yml"%string := py "name: " ++ [0xC3; 0xA9] ++ [LF] ]}.
Definition argv_accent : list string := ["name.j2"; "accent.yml"]%string.
Definition argv_accent_o : list string :=
  ["name.j2"; "accent.yml"; "-o"; "out.txt"]%string.

(** A template with the text [Ã©], stored in UTF-8. *)
Definition mojibake_files : gmap string bytes :=
  {[ "/work/moji.j2"%string := [0xC3; 0x83; 0xC2; 0xA9];
     "/work/empty.yml"%string := py "{}" ]}.
Definition argv_moji : list string := ["moji.j2"; "empty.yml"]%string.
Definition argv_moji_o : list string :=
  ["moji.j2"; "empty.yml"; "-o"; "out.txt"]%string.
Definition argv_hello_o : list string :=
  ["hello.j2"; "world.yml"; "-o"; "out.txt"]%string.
Definition argv_empty_o : list string :=
  ["hello.j2"; "world.yml"; "-o"; ""]%string.
Definition argv_hello : list string := ["hello.j2"; "world.yml"]%string.
Definition argv_missing_filters : list string :=
  ["hello.j2"; "world.yml"; "--filters"; "filters.py"; "nowhere.py"]%string.

(** A data file that is not UTF-8. *)
Definition broken_files : gmap string bytes :=
  {[ "/work/hello.j2"%string := hello_j2;
     "/work/broken.yml"%string := py "name: " ++ [0xFF] ]}.
Definition argv_broken : list string := ["hello.j2"; "broken.yml"]%string.

(** A registry with one function, and a mapping that redefines it. *)
Definition one_filter : gmap string PyObj :=
  {[ "shout"%string := PyFunction MODULE_NAME "shout" ]}.

(** Contexts. *)
Definition world_ctx : Context := {[ py "name" := VStr (py "World") ]}.
Definition world_newline_ctx : Context :=
  {[ py "name" := VStr (py "World" ++ [LF]) ]}.
Definition hello_world : bytes := py "Hello World!" ++ [LF].

End Demo.

(** ** Vocabulary of the statements *)

(** The events of loading the extension files [files], one after another. *)
Definition ext_events (files : list string) : list Event :=
  flat_map (λ f, [EvLoadSource f; EvOpen (Some f) ModeR]) files.

Definition is_get_source (e : Event) : bool :=
  match e with EvGetSource _ => true | _ => false end.

(** No template loading among the events. *)
Definition no_get_source (evs : list Event) : Prop :=
  forallb (λ e, negb (is_get_source e)) evs = true.

(** The statements of [render_command] between the parsing of the command
    line and the call of [renderer.render]: they build the context and the
    renderer with its registries. *)
Definition before_render (X : Externals) (cwd : string) (a : args.Namespace)
    : M (Context * Jinja2TemplateRenderer) :=
  text <- Os.read_text (args.data a) None ;;
  context <- lift (yaml_load X text) ;;
  renderer <- Jinja2TemplateRenderer_init X cwd (args.undefined a)
                (Some CP1252) None ;;
  renderer <- for_each (args.filters a) (import_filters X) renderer ;;
  renderer <- for_each (args.tests a) (import_tests X) renderer ;;
  ret (context, renderer).

(** The statements of [render_command] after the call of
    [renderer.render]: the [-o] branch and the final [return]. *)
Definition after_render (a : args.Namespace) (result : bytes) : M bytes :=
  if truthy (args.output_file a) then
    let output_file := default ""%string (args.output_file a) in
    Os.open_wt output_file ;;;
    s <- lift_opt UnicodeDecodeError (Codec.decode UTF8 result) ;;
    Os.write_text output_file UTF8 s ;;;
    ret []
  else ret result.

Definition is_ascii (c : N) : Prop := c < 0x80.

(** The dictionary that a first call of [__init__] without
    [j2_env_params] leaves in the default value of the parameter. *)
Definition first_call_defaults (u : UndefinedClass) (cwd : string)
    : gmap string ParamVal :=
  setdefault "loader" (PLoader (FilePathLoader_init cwd None))
    (setdefault "extensions" (PExtensions ENABLED_EXTENSIONS)
       (setdefault "undefined" (PUndefined u)
          (setdefault "keep_trailing_newline" (PBool true) ∅))).

(** The states of that dictionary in a process in which [__init__] is
    only called without [j2_env_params], as [render_command] does: empty
    before the first call, and as the first call left it afterwards. *)
Definition defaults_reachable (d : gmap string ParamVal) : Prop :=
  d = ∅ ∨ ∃ u cwd, d = first_call_defaults u cwd.

(** What [render] returns, as a function of the renderer, the context and
    the content of the file that the template path names. *)
Definition render_of_file (r : Jinja2TemplateRenderer) (t : string)
    (ctx : Context) (file : option bytes) : Result bytes :=
  match Jinja2.loader (_env r) with
  | None => Raise TypeError
  | Some l =>
      match file with
      | None => Raise (TemplateNotFound t)
      | Some bs =>
          match Codec.decode (loader_encoding l) bs with
          | None => Raise UnicodeDecodeError
          | Some src =>
              match Jinja2.compile (_env r) (Os.universal_newlines src) with
              | Raise e => Raise e
              | Ok tpl =>
                  match Jinja2.render tpl ctx with
                  | Raise e => Raise e
                  | Ok s =>
                      match Codec.encode (encoding r) s with
                      | Some b => Ok b
                      | None => Raise UnicodeEncodeError
                      end
                  end
              end
          end
      end
  end.

(** What a computation leaves alone when it touches neither files nor the
    standard streams: the worlds differ in interpreter state and trace only. *)
Definition same_outside (w w' : World) : Prop :=
  fs w' = fs w ∧ os_cwd w' = os_cwd w
  ∧ preferred_encoding w' = preferred_encoding w
  ∧ os_linesep w' = os_linesep w
  ∧ stdin w' = stdin w ∧ stdout w' = stdout w.

(** The parsed command line without its [-o]. *)
Definition without_output_file (a : args.Namespace) : args.Namespace :=
  {| args.filters := args.filters a; args.tests := args.tests a;
     args.customize := args.customize a; args.undefined := args.undefined a;
     args.output_file := None; args.template := args.template a;
     args.data := args.data a |}.

(** * Properties *)

(** ** The monad *)

Section MonadFacts.
Context {A B : Type}.
Implicit Types (m : M A) (k : A → M B) (w : World).

Lemma bind_ok m k w a w1 : m w = (Ok a, w1) → bind m k w = k a w1.
Proof. intros H. unfold bind. now rewrite H. Qed.

Lemma bind_raise m k w e w1 :
  m w = (Raise e, w1) → bind m k w = (Raise e, w1).
Proof. intros H. unfold bind. now rewrite H. Qed.

Lemma bind_inv m k w r w' :
  bind m k w = (r, w') →
  (∃ a w1, m w = (Ok a, w1) ∧ k a w1 = (r, w'))
  ∨ (∃ e, m w = (Raise e, w') ∧ r = Raise e).
Proof.
  unfold bind. destruct (m w) as [[a|e] w1]; intros H.
  - left. eauto.
  - right. inversion H; subst. eauto.
Qed.
End MonadFacts.

(** ** Traces of the single steps *)

Lemma trace_log e w : trace (log e w) = trace w ++ [e].
Proof. reflexivity. Qed.

Lemma read_text_world path enc w :
  snd (Os.read_text path enc w) = log (EvOpen path ModeR) w.
Proof.
  unfold Os.read_text, bind, modify, lift_opt, gets, ret. simpl.
  destruct path as [p|]; simpl; [|reflexivity].
  destruct (fs w !! Os.resolve _ p); simpl; [|reflexivity].
  destruct (Codec.decode _ _); reflexivity.
Qed.

Lemma read_text_missing p enc w :
  fs w !! Os.resolve w p = None →
  Os.read_text (Some p) enc w
  = (Raise FileNotFoundError, log (EvOpen (Some p) ModeR) w).
Proof.
  intros H. unfold Os.read_text, bind, modify, lift_opt, gets, ret. simpl.
  unfold Os.resolve in *. simpl. now rewrite H.
Qed.

Lemma read_text_none enc w :
  Os.read_text None enc w = (Raise TypeError, log (EvOpen None ModeR) w).
Proof. reflexivity. Qed.

Lemma init_trace X cwd allow enc params w r w' :
  Jinja2TemplateRenderer_init X cwd allow enc params w = (r, w') →
  trace w' = trace w ∧ ∃ renderer, r = Ok renderer.
Proof.
  unfold Jinja2TemplateRenderer_init, bind, gets, modify, ret.
  destruct params; simpl; intros H; inversion H; subst; eauto.
Qed.

Lemma imp_load_source_trace X name f w r w' :
  imp_load_source X name f w = (r, w') →
  trace w' = trace w ++ ext_events [f].
Proof.
  unfold imp_load_source, Os.read_bytes, bind, modify, lift_opt, lift, gets, ret.
  simpl. destruct (fs w !! _); simpl.
  - destruct (py_exec X _); simpl; intros H; inversion H; subst; simpl;
      now rewrite <- app_assoc.
  - intros H; inversion H; subst; simpl. now rewrite <- app_assoc.
Qed.

Lemma import_filters_trace X self f w r w' :
  import_filters X self f w = (r, w') → trace w' = trace w ++ ext_events [f].
Proof.
  unfold import_filters, _import_functions. intros H.
  apply bind_inv in H as [(m & w1 & H1 & H2)|(e & H1 & _)].
  - apply bind_inv in H1 as [(m' & w2 & H1 & H3)|(e & H1 & ?)]; [|discriminate].
    inversion H3; subst. inversion H2; subst.
    eapply imp_load_source_trace; eauto.
  - apply bind_inv in H1 as [(m' & w2 & H1 & H3)|(e' & H1 & ?)].
    + inversion H3.
    + eapply imp_load_source_trace; eauto.
Qed.

Lemma import_tests_trace X self f w r w' :
  import_tests X self f w = (r, w') → trace w' = trace w ++ ext_events [f].
Proof.
  unfold import_tests, _import_functions. intros H.
  apply bind_inv in H as [(m & w1 & H1 & H2)|(e & H1 & _)].
  - apply bind_inv in H1 as [(m' & w2 & H1 & H3)|(e & H1 & ?)]; [|discriminate].
    inversion H3; subst. inversion H2; subst.
    eapply imp_load_source_trace; eauto.
  - apply bind_inv in H1 as [(m' & w2 & H1 & H3)|(e' & H1 & ?)].
    + inversion H3.
    + eapply imp_load_source_trace; eauto.
Qed.

Lemma ext_events_app l1 l2 : ext_events (l1 ++ l2) = ext_events l1 ++ ext_events l2.
Proof. unfold ext_events. apply flat_map_app. Qed.

Lemma ext_events_no_get_source l : no_get_source (ext_events l).
Proof. induction l; [reflexivity|exact IHl]. Qed.

Lemma no_get_source_app l1 l2 :
  no_get_source l1 → no_get_source l2 → no_get_source (l1 ++ l2).
Proof. unfold no_get_source. rewrite forallb_app. intros -> ->. reflexivity. Qed.

(** A loop of imports that completes has loaded every file, in order; one
    that fails has loaded the files up to the failing one. *)
Lemma for_each_import_trace {R}
    (body : R → string → M R) (files : list string) :
  (∀ r f w res w', body r f w = (res, w') → trace w' = trace w ++ ext_events [f]) →
  ∀ r w res w', for_each files body r w = (res, w') →
    match res with
    | Ok _ => trace w' = trace w ++ ext_events files
    | Raise _ => ∃ k, trace w' = trace w ++ ext_events (take k files)
    end.
Proof.
  intros Hbody. induction files as [|f files IH]; intros r w res w' H.
  - inversion H; subst. simpl. now rewrite app_nil_r.
  - simpl in H. apply bind_inv in H as [(r1 & w1 & H1 & H2)|(e & H1 & ->)].
    + apply Hbody in H1. apply IH in H2. destruct res.
      * rewrite H2, H1, <- app_assoc. reflexivity.
      * destruct H2 as [k H2]. exists (S k).
        rewrite H2, H1, <- app_assoc. reflexivity.
    + apply Hbody in H1. exists 1%nat. rewrite H1. simpl.
      destruct files; reflexivity.
Qed.

(** ** The stages of [render_command] *)

Lemma render_command_stages X cwd stdin argv a w :
  parse_args X argv = Ok a →
  render_command X cwd stdin argv w
  = (cr <- before_render X cwd a ;;
     result <- render (snd cr) (args.template a) (fst cr) ;;
     after_render a result) w.
Proof.
  intros Hp. unfold render_command, before_render, after_render.
  unfold bind at 1. unfold lift at 1. rewrite Hp.
  unfold bind, ret.
  destruct (Os.read_text _ _ w) as [[text|e] w1]; [|reflexivity].
  destruct (lift (yaml_load X text) w1) as [[c|e] w2]; [|reflexivity].
  destruct (Jinja2TemplateRenderer_init _ _ _ _ _ w2) as [[r0|e] w3]; [|reflexivity].
  destruct (for_each _ _ r0 w3) as [[r1|e] w4]; [|reflexivity].
  destruct (for_each _ _ r1 w4) as [[r2|e] w5]; reflexivity.
Qed.

Lemma before_render_trace X cwd a w res w' :
  before_render X cwd a w = (res, w') →
  match res with
  | Ok _ => trace w' = trace w ++ EvOpen (args.data a) ModeR
                         :: ext_events (args.filters a ++ args.tests a)
  | Raise _ => ∃ evs, trace w' = trace w ++ evs ∧ no_get_source evs
  end.
Proof.
  unfold before_render. intros H.
  pose proof (read_text_world (args.data a) None w) as Hw1.
  assert (Hd : no_get_source [EvOpen (args.data a) ModeR]) by reflexivity.
  apply bind_inv in H as [(text & w1 & H1 & H)|(e & H1 & ->)];
    rewrite H1 in Hw1; simpl in Hw1.
  2:{ subst w'. exists [EvOpen (args.data a) ModeR]. done. }
  subst w1.
  apply bind_inv in H as [(c & w2 & H2 & H)|(e & H2 & ->)];
    unfold lift in H2; injection H2 as Hy <-.
  2:{ exists [EvOpen (args.data a) ModeR]. done. }
  apply bind_inv in H as [(r0 & w3 & H3 & H)|(e & H3 & ->)];
    apply init_trace in H3 as [H3 [? Hr]]; [|discriminate].
  apply bind_inv in H as [(r1 & w4 & H4 & H)|(e & H4 & ->)];
    apply (for_each_import_trace _ _ (import_filters_trace X)) in H4.
  2:{ destruct H4 as [k H4]. eexists. split.
      - rewrite H4, H3. simpl. rewrite <- app_assoc. reflexivity.
      - apply (ext_events_no_get_source (take k _)). }
  apply bind_inv in H as [(r2 & w5 & H5 & H)|(e & H5 & ->)];
    apply (for_each_import_trace _ _ (import_tests_trace X)) in H5.
  2:{ destruct H5 as [k H5]. eexists. split.
      - rewrite H5, H4, H3. simpl. rewrite <- !app_assoc. reflexivity.
      - apply (no_get_source_app (_ :: ext_events _));
          [apply ext_events_no_get_source
          |apply (ext_events_no_get_source (take k _))]. }
  inversion H; subst.
  rewrite H5, H4, H3. simpl. rewrite ext_events_app, <- !app_assoc. reflexivity.
Qed.

Lemma get_source_world l env t w :
  snd (FilePathLoader_get_source l env t w)
  = log (EvOpen (Some t) ModeR) (log (EvGetSource t) w).
Proof.
  unfold FilePathLoader_get_source, bind, modify, try_except, ret. simpl.
  pose proof (read_text_world (Some t) (Some (loader_encoding l))
                (log (EvGetSource t) w)) as H.
  destruct (Os.read_text _ _ _) as [[s|e] w1]; simpl in *; now subst.
Qed.

Lemma get_template_world env t w :
  snd (get_template env t w) = w
  ∨ snd (get_template env t w)
    = log (EvOpen (Some t) ModeR) (log (EvGetSource t) w).
Proof.
  unfold get_template, bind, lift_opt, lift.
  destruct (Jinja2.loader env) as [l|]; [right|left; reflexivity].
  pose proof (get_source_world l env t w) as H.
  destruct (FilePathLoader_get_source l env t w) as [[s|e] w1]; simpl in *;
    now subst.
Qed.

Lemma render_world self t ctx w :
  snd (render self t ctx w) = w
  ∨ snd (render self t ctx w)
    = log (EvOpen (Some t) ModeR) (log (EvGetSource t) w).
Proof.
  unfold render, bind, lift, lift_opt.
  destruct (get_template_world (_env self) t w) as [H|H];
    destruct (get_template _ _ _) as [[tpl|e] w1]; simpl in *; subst;
    [left|left|right|right]; try reflexivity;
    destruct (Jinja2.render _ _); try reflexivity;
    destruct (Codec.encode _ _); reflexivity.
Qed.

Lemma after_render_trace a result w res w' :
  after_render a result w = (res, w') →
  ∃ evs, trace w' = trace w ++ evs ∧ no_get_source evs.
Proof.
  unfold after_render, Os.open_wt, Os.write_text, bind, modify, gets,
    lift_opt, ret.
  destruct (truthy _); simpl.
  - destruct (Codec.utf8_decode result); simpl.
    + destruct (Codec.utf8_encode _); simpl; intros H; inversion H; subst;
        eexists; (split; [reflexivity|reflexivity]).
    + intros H; inversion H; subst. eexists; (split; [reflexivity|reflexivity]).
  - intros H; inversion H; subst. exists []. now rewrite app_nil_r.
Qed.

Lemma no_get_source_middle l1 t l2 :
  ¬ no_get_source (l1 ++ EvGetSource t :: l2).
Proof.
  unfold no_get_source. rewrite forallb_app. simpl.
  rewrite andb_false_r. discriminate.
Qed.

Lemma split_at_get_source pre0 t0 post0 pre t post :
  no_get_source pre0 → no_get_source post0 →
  pre0 ++ EvGetSource t0 :: post0 = pre ++ EvGetSource t :: post →
  pre = pre0 ∧ t = t0 ∧ post = post0.
Proof.
  revert pre. induction pre0 as [|e0 pre0 IH]; intros [|e pre] Hpre Hpost H;
    simpl in H.
  - now inversion H.
  - inversion H; subst. now apply no_get_source_middle in Hpost.
  - inversion H; subst. discriminate Hpre.
  - inversion H; subst.
    unfold no_get_source in Hpre. simpl in Hpre.
    apply andb_prop in Hpre as [_ Hpre].
    destruct (IH pre Hpre Hpost) as (-> & -> & ->); auto.
Qed.

(** ** The data file *)

(** C8.  When the data-file argument is omitted ([args.data] is [None]),
    the pipeline fails by opening the null path: [render_command] raises
    [TypeError] from [open(None)], whatever standard input holds, and the
    attempt to open is all that has happened; the script ends with the same
    exception and writes nothing. *)
Theorem omitted_data_file_opens_null_path X cwd stdin_ argv a w :
  parse_args X argv = Ok a →
  args.data a = None →
  render_command X cwd stdin_ argv w
  = (Raise TypeError, log (EvOpen None ModeR) w)
  ∧ main X argv w = (Raise TypeError, log (EvOpen None ModeR) w).
Proof.
  intros Hp Hd.
  assert (H : ∀ c i, render_command X c i argv w
                     = (Raise TypeError, log (EvOpen None ModeR) w)).
  { intros c i. rewrite (render_command_stages _ _ _ _ _ _ Hp).
    apply bind_raise. unfold before_render. apply bind_raise.
    rewrite Hd. apply read_text_none. }
  split; [apply H|].
  unfold main, bind, gets, try_except. now rewrite H.
Qed.

Lemma omitted_data_file_witness :
  render_command Demo.X "/work" [] ["hello.j2"%string] Demo.w0
  = (Raise TypeError, log (EvOpen None ModeR) Demo.w0)
  ∧ main Demo.X ["hello.j2"%string] Demo.w0
    = (Raise TypeError, log (EvOpen None ModeR) Demo.w0).
Proof.
  apply (omitted_data_file_opens_null_path Demo.X "/work" [] ["hello.j2"%string]
           {| args.filters := []; args.tests := []; args.customize := None;
              args.undefined := false; args.output_file := None;
              args.template := "hello.j2"; args.data := None |} Demo.w0);
    reflexivity.
Defined.



(** ** The template source provider *)

(** What [get_source] returns, in terms of the files: the file it reads is
    the one that [template] names for the process; [self.cwd] only shows in
    the [filename] it reports. *)
Lemma get_source_spec l env t w :
  fst (FilePathLoader_get_source l env t w)
  = match fs w !! Os.resolve w t with
    | None => Raise (TemplateNotFound t)
    | Some bs =>
        match Codec.decode (loader_encoding l) bs with
        | None => Raise UnicodeDecodeError
        | Some s => Ok (Os.universal_newlines s,
                        Os.path_join (loader_cwd l) t, false)
        end
    end.
Proof.
  unfold FilePathLoader_get_source, Os.read_text, try_except, bind, modify,
    lift_opt, gets, ret, Os.resolve. simpl.
  destruct (fs w !! _); simpl; [|reflexivity].
  destruct (Codec.decode _ _); reflexivity.
Qed.

(** C3.  The loader of a project in [/proj], asked for [page.j2] by a
    process that runs in [/work]: the path it computes from its working
    directory is [/proj/page.j2], a file that exists; the file it opens is
    [page.j2] of the process, so it reports the template as not found, or,
    when [/work/page.j2] exists, returns the text of that file under the
    name [/proj/page.j2]. *)
Theorem get_source_opens_template_not_filename :
  let l := FilePathLoader_init "/proj" None in
  Os.path_join (loader_cwd l) "page.j2" = "/proj/page.j2"%string
  ∧ Demo.proj_files !! "/proj/page.j2"%string = Some (py "project page")
  ∧ fst (FilePathLoader_get_source l Demo.plain_env "page.j2"
           (Demo.start UTF8 Demo.proj_files))
    = Raise (TemplateNotFound "page.j2")
  ∧ fst (FilePathLoader_get_source l Demo.plain_env "page.j2"
           (Demo.start UTF8 Demo.proj_and_work_files))
    = Ok (py "some other page", "/proj/page.j2"%string, false).
Proof. repeat split; reflexivity. Qed.

(** ** The undefined policy *)

(** [__init__] called without [j2_env_params] in a process where it has
    not been called so before: the policy is the one of the flag. *)
Lemma init_first_call X cwd allow enc w :
  init_defaults w = ∅ →
  ∃ r d, Jinja2TemplateRenderer_init X cwd allow enc None w
         = (Ok r, set_init_defaults d w)
    ∧ Jinja2.undefined (_env r) = (if allow then Undefined else StrictUndefined)
    ∧ Jinja2.keep_trailing_newline (_env r) = true
    ∧ Jinja2.loader (_env r) = Some (FilePathLoader_init cwd None)
    ∧ d !! "undefined"%string
      = Some (PUndefined (if allow then Undefined else StrictUndefined)).
Proof.
  intros H. unfold Jinja2TemplateRenderer_init, bind, gets, modify, ret.
  simpl. rewrite H. eexists _, _. split; [reflexivity|].
  destruct allow; repeat split; reflexivity.
Qed.

Lemma setdefault_ne {V} (k k' : string) (v : V) d :
  k ≠ k' → setdefault k v d !! k' = d !! k'.
Proof.
  intros Hne. unfold setdefault. destruct (d !! k) eqn:E; [reflexivity|].
  now rewrite lookup_insert_ne.
Qed.

Lemma setdefault_present {V} (k : string) (v x : V) d :
  d !! k = Some x → setdefault k v d = d.
Proof. intros H. unfold setdefault. now rewrite H. Qed.

Lemma setdefault_absent {V} (k : string) (v : V) d :
  d !! k = None → setdefault k v d !! k = Some v.
Proof. intros H. unfold setdefault. rewrite H. apply lookup_insert_eq. Qed.

(** In a later call the dictionary already has the key, [setdefault] keeps
    it, and the flag of the call has no effect. *)
Lemma init_later_call X cwd allow enc w u r w' :
  init_defaults w !! "undefined"%string = Some (PUndefined u) →
  Jinja2TemplateRenderer_init X cwd allow enc None w = (Ok r, w') →
  Jinja2.undefined (_env r) = u.
Proof.
  intros H. unfold Jinja2TemplateRenderer_init, bind, gets, modify, ret.
  simpl. intros Hr. inversion Hr; subst; clear Hr. simpl.
  rewrite !(setdefault_ne _ "undefined") by discriminate.
  erewrite (setdefault_present "undefined").
  - rewrite setdefault_ne by discriminate. now rewrite H.
  - rewrite setdefault_ne by discriminate. exact H.
Qed.

(** The engine on a reference to an absent key. *)
Lemma render_nodes_permissive ctx pre name post :
  ctx !! name = None →
  Jinja2.render_nodes Undefined ctx (pre ++ Jinja2.Output name :: post)
  = Jinja2.render_nodes Undefined ctx (pre ++ post).
Proof.
  intros H. induction pre as [|[d|n] pre IH]; simpl.
  - now rewrite H.
  - now rewrite IH.
  - destruct (ctx !! n); now rewrite IH.
Qed.

Lemma render_nodes_permissive_total ctx ns :
  ∃ s, Jinja2.render_nodes Undefined ctx ns = Ok s.
Proof.
  induction ns as [|[d|n] ns [s IH]]; simpl; eauto.
  - rewrite IH. simpl. eauto.
  - destruct (ctx !! n); rewrite IH; simpl; eauto.
Qed.

Lemma render_nodes_strict ctx pre name post :
  ctx !! name = None →
  (∀ n, In (Jinja2.Output n) pre → is_Some (ctx !! n)) →
  Jinja2.render_nodes StrictUndefined ctx (pre ++ Jinja2.Output name :: post)
  = Raise UndefinedError.
Proof.
  intros H. induction pre as [|[d|n] pre IH]; simpl; intros Hpre.
  - now rewrite H.
  - rewrite IH; [reflexivity|]. intros n Hn. apply Hpre. now right.
  - destruct (Hpre n (or_introl eq_refl)) as [v ->].
    rewrite IH; [reflexivity|]. intros n' Hn. apply Hpre. now right.
Qed.

(** C1.  One process, the template [Hello {{ name }}!] and the empty
    context [{}].  In a first call of [render_command] the policy follows
    the flag: without [--undefined] the call raises [UndefinedError], with
    it the output is [Hello !].  A call that comes second gets the policy
    of the first: with [--undefined] after a call without it the call
    raises [UndefinedError], and without [--undefined] after a call with
    it the call renders [Hello !]. *)
Theorem undefined_flag_ignored_after_first_call :
  let run argv w := render_command Demo.X "/work" [] argv w in
  fst (run Demo.argv_strict Demo.w0) = Raise UndefinedError
  ∧ fst (run Demo.argv_permissive Demo.w0) = Ok Demo.hello_nothing
  ∧ fst (run Demo.argv_permissive (snd (run Demo.argv_strict Demo.w0)))
    = Raise UndefinedError
  ∧ fst (run Demo.argv_strict (snd (run Demo.argv_permissive Demo.w0)))
    = Ok Demo.hello_nothing.
Proof. repeat split; vm_compute; reflexivity. Qed.

(** A property of the object that every round of a loop keeps holds
    after the loop. *)
Lemma for_each_preserves {A R} (P : R → Prop) (body : R → A → M R) files :
  (∀ r f w r' w', P r → body r f w = (Ok r', w') → P r') →
  ∀ r w r' w', P r → for_each files body r w = (Ok r', w') → P r'.
Proof.
  intros Hbody. induction files as [|f files IH]; intros r w r' w' Hr Hf;
    simpl in Hf.
  - now inversion Hf; subst.
  - apply bind_inv in Hf as [(r1 & w1 & Hf1 & Hf2)|(e & _ & ?)]; [|discriminate].
    eapply IH; [|exact Hf2]. eapply Hbody; eauto.
Qed.

(** ** Encodings *)

(** The data file is opened without an [encoding]: its bytes are decoded
    with the preferred encoding of the system. *)
Lemma data_file_decoding p w bs :
  fs w !! Os.resolve w p = Some bs →
  fst (Os.read_text (Some p) None w)
  = match Codec.decode (preferred_encoding w) bs with
    | Some s => Ok (Os.universal_newlines s)
    | None => Raise UnicodeDecodeError
    end.
Proof.
  intros H. unfold Os.read_text, bind, modify, lift_opt, gets, ret.
  unfold Os.resolve in *. simpl in *. rewrite H. simpl.
  destruct (Codec.decode _ _); reflexivity.
Qed.

(** The bytes that [render_command] returns without [-o] are the cp1252
    encoding of a text, whatever the preferred encoding of the system. *)
Lemma render_command_result_cp1252 X cwd stdin_ argv a w result w' :
  parse_args X argv = Ok a →
  truthy (args.output_file a) = false →
  render_command X cwd stdin_ argv w = (Ok result, w') →
  ∃ s, Codec.cp1252_encode s = Some result.
Proof.
  intros Hp Ho H. rewrite (render_command_stages _ _ _ _ _ _ Hp) in H.
  apply bind_inv in H as [([c r] & w1 & Hb & H)|(e & _ & ?)]; [|discriminate].
  simpl in H.
  apply bind_inv in H as [(res & w2 & Hr & H)|(e & _ & ?)]; [|discriminate].
  unfold after_render in H. rewrite Ho in H. inversion H; subst; clear H.
  assert (He : encoding r = CP1252).
  { unfold before_render in Hb.
    apply bind_inv in Hb as [(? & ? & _ & Hb)|(e & _ & ?)]; [|discriminate].
    apply bind_inv in Hb as [(? & ? & _ & Hb)|(e & _ & ?)]; [|discriminate].
    apply bind_inv in Hb as [(r0 & ? & H0 & Hb)|(e & _ & ?)]; [|discriminate].
    assert (E0 : encoding r0 = CP1252).
    { unfold Jinja2TemplateRenderer_init, bind, gets, modify, ret in H0.
      simpl in H0. now inversion H0. }
    apply bind_inv in Hb as [(r1 & ? & H1 & Hb)|(e & _ & ?)]; [|discriminate].
    apply bind_inv in Hb as [(r2 & ? & H2 & Hb)|(e & _ & ?)]; [|discriminate].
    inversion Hb; subst; clear Hb. simpl.
    eapply (for_each_preserves (λ r, encoding r = CP1252)); [| |exact H2].
    - intros ra f wa res wb Ha Hi. unfold import_tests in Hi.
      apply bind_inv in Hi as [(? & ? & _ & Hi)|(e & _ & ?)]; [|discriminate].
      now inversion Hi.
    - eapply (for_each_preserves (λ r, encoding r = CP1252)); [| |exact H1].
      + intros ra f wa res wb Ha Hi. unfold import_filters in Hi.
        apply bind_inv in Hi as [(? & ? & _ & Hi)|(e & _ & ?)]; [|discriminate].
        now inversion Hi.
      + exact E0. }
  unfold render in Hr.
  apply bind_inv in Hr as [(tpl & ? & _ & Hr)|(e & _ & ?)]; [|discriminate].
  apply bind_inv in Hr as [(s & ? & _ & Hr)|(e & _ & ?)]; [|discriminate].
  rewrite He in Hr. unfold lift_opt in Hr. simpl in Hr.
  exists s. destruct (Codec.cp1252_encode s); now inversion Hr.
Qed.

(** C2.  A data file that holds [name: é] in UTF-8 and the template
    [{{ name }}].  Where the preferred encoding is UTF-8 the name is read
    as [é] and the output is the cp1252 byte of [é]; where it is cp1252
    the two bytes of the file are read as the two characters [Ã©] and the
    output is their two cp1252 bytes. *)
Theorem data_file_read_in_preferred_encoding :
  let run enc := render_command Demo.X "/work" [] Demo.argv_accent
                   (Demo.start enc Demo.accent_files) in
  fst (run UTF8) = Ok [0xE9]
  ∧ fst (run CP1252) = Ok [0xC3; 0xA9]
  ∧ fst (Os.read_text (Some "accent.yml"%string) None
           (Demo.start CP1252 Demo.accent_files))
    = Ok (py "name: " ++ [0xC3; 0xA9] ++ [LF])
  ∧ Codec.utf8_decode (py "name: " ++ [0xC3; 0xA9] ++ [LF])
    = Some (py "name: " ++ [0xE9] ++ [LF]).
Proof. repeat split; vm_compute; reflexivity. Qed.

(** ** The extension loader *)

(** The first load of a process: the mapping has exactly the names that
    the file binds to Python functions, each with the object it was bound
    to last. *)
Lemma import_functions_first_load X self f w code bindings :
  sys_modules w !! MODULE_NAME = None →
  fs w !! Os.resolve w f = Some code →
  py_exec X code = Ok bindings →
  ∃ w', _import_functions X self f w
        = (Ok (filter (λ member, isfunction (snd member) = true)
                 (foldl (λ ns b, <[fst b := snd b]> ns)
                    (module_attrs) bindings)), w').
Proof.
  intros Hm Hf He.
  unfold _import_functions, imp_load_source, Os.read_bytes, bind, modify,
    lift_opt, lift, gets, ret, Os.resolve in *. simpl in *.
  rewrite Hf. simpl. rewrite He. simpl. rewrite Hm. simpl. eauto.
Qed.

(** A later load runs in the namespace the earlier loads left behind. *)
Lemma import_functions_later_load X self f w code bindings ns :
  sys_modules w !! MODULE_NAME = Some ns →
  fs w !! Os.resolve w f = Some code →
  py_exec X code = Ok bindings →
  ∃ w', _import_functions X self f w
        = (Ok (filter (λ member, isfunction (snd member) = true)
                 (foldl (λ ns b, <[fst b := snd b]> ns) ns bindings)), w').
Proof.
  intros Hm Hf He.
  unfold _import_functions, imp_load_source, Os.read_bytes, bind, modify,
    lift_opt, lift, gets, ret, Os.resolve in *. simpl in *.
  rewrite Hf. simpl. rewrite He. simpl. rewrite Hm. simpl. eauto.
Qed.

(** C4.  [--filters filters.py --tests tests.py]: [filters.py] defines
    [shout], [tests.py] defines [is_loud] and nothing else.  Loaded alone,
    [tests.py] gives the mapping with [is_loud] only.  Loaded after
    [filters.py], it gives a mapping that has [shout] as well, and [shout]
    is registered as a test. *)
Theorem tests_file_returns_functions_of_filters_file :
  let alone :=
    (r <- Jinja2TemplateRenderer_init Demo.X "/work" false (Some CP1252) None ;;
     _import_functions Demo.X r "tests.py") Demo.w0 in
  let both :=
    (r <- Jinja2TemplateRenderer_init Demo.X "/work" false (Some CP1252) None ;;
     r <- for_each ["filters.py"%string] (import_filters Demo.X) r ;;
     m <- _import_functions Demo.X r "tests.py" ;;
     ret (m, register_tests r m)) Demo.w0 in
  Demo.two_files_exec Demo.tests_py
  = Ok [("is_loud"%string, PyFunction MODULE_NAME "is_loud")]
  ∧ (∃ m, fst alone = Ok m
        ∧ m !! "is_loud"%string = Some (PyFunction MODULE_NAME "is_loud")
        ∧ m !! "shout"%string = None)
  ∧ (∃ m r, fst both = Ok (m, r)
        ∧ m !! "is_loud"%string = Some (PyFunction MODULE_NAME "is_loud")
        ∧ m !! "shout"%string = Some (PyFunction MODULE_NAME "shout")
        ∧ Jinja2.tests (_env r) !! "shout"%string
          = Some (PyFunction MODULE_NAME "shout")).
Proof.
  split; [reflexivity|]. split.
  - eexists. split; [vm_compute; reflexivity|]. split; vm_compute; reflexivity.
  - eexists _, _. split; [vm_compute; reflexivity|].
    repeat split; vm_compute; reflexivity.
Qed.

(** ** The codecs *)

Lemma cp1252_encode_ascii s :
  Forall is_ascii s → Codec.cp1252_encode s = Some s.
Proof.
  induction 1 as [|c s Hc _ IH]; [reflexivity|]. simpl.
  unfold Codec.cp1252_encode_char. unfold is_ascii in Hc.
  apply N.ltb_lt in Hc. rewrite Hc, IH. reflexivity.
Qed.

Lemma utf8_encode_ascii s :
  Forall is_ascii s → Codec.utf8_encode s = Some s.
Proof.
  induction 1 as [|c s Hc _ IH]; [reflexivity|]. simpl.
  unfold Codec.utf8_encode_char. unfold is_ascii in Hc.
  apply N.ltb_lt in Hc. rewrite Hc, IH. reflexivity.
Qed.

Lemma utf8_decode_ascii_cons b bs :
  is_ascii b → Codec.utf8_decode (b :: bs) = cons b <$> Codec.utf8_decode bs.
Proof. intros Hb. apply N.ltb_lt in Hb. simpl. now rewrite Hb. Qed.

Lemma utf8_decode_ascii_app pre bs :
  Forall is_ascii pre →
  Codec.utf8_decode (pre ++ bs) = app pre <$> Codec.utf8_decode bs.
Proof.
  induction 1 as [|b pre Hb _ IH].
  - simpl. now destruct (Codec.utf8_decode bs).
  - rewrite <- app_comm_cons, utf8_decode_ascii_cons, IH by exact Hb.
    now destruct (Codec.utf8_decode bs).
Qed.

Lemma utf8_decode_ascii bs :
  Forall is_ascii bs → Codec.utf8_decode bs = Some bs.
Proof.
  intros H. rewrite <- (app_nil_r bs) at 1.
  rewrite utf8_decode_ascii_app by exact H. simpl. now rewrite app_nil_r.
Qed.

(** An octet from 0x80 on that stands at the end of the input, or before
    an ASCII octet, is not the start of a well-formed sequence. *)
Lemma utf8_decode_lone_high b rest :
  0x80 ≤ b →
  match rest with [] => True | d :: _ => is_ascii d end →
  Codec.utf8_decode (b :: rest) = None.
Proof.
  intros Hb Hrest.
  assert (Hlt : (b <? 0x80) = false) by now apply N.ltb_ge.
  assert (Hlow : ∀ lo hi d, is_ascii d → 0x80 ≤ lo → Codec.in_range lo hi d = false).
  { intros lo hi d Hd Hlo. unfold Codec.in_range, is_ascii in *.
    apply andb_false_intro1. apply N.leb_gt. lia. }
  cbn [Codec.utf8_decode]. rewrite Hlt.
  destruct (Codec.in_range 0xC2 0xDF b).
  { destruct rest as [|d r]; [reflexivity|].
    unfold Codec.is_cont. fold (Codec.in_range 0x80 0xBF d).
    now rewrite Hlow. }
  destruct (Codec.in_range 0xE0 0xEF b).
  { destruct rest as [|d [|d2 r]]; try reflexivity.
    rewrite Hlow; [reflexivity|exact Hrest|]. destruct (b =? 0xE0); lia. }
  destruct (Codec.in_range 0xF0 0xF4 b); [|reflexivity].
  destruct rest as [|d [|d2 [|d3 r]]]; try reflexivity.
  rewrite Hlow; [reflexivity|exact Hrest|]. destruct (b =? 0xF0); lia.
Qed.

Lemma cp1252_encode_char_high c b :
  0x80 ≤ c → Codec.cp1252_encode_char c = Some b → 0x80 ≤ b.
Proof.
  intros Hc. unfold Codec.cp1252_encode_char.
  destruct (c <? 0x80) eqn:E; [apply N.ltb_lt in E; lia|].
  destruct (_ && _); [intros [= <-]; exact Hc|].
  intros H.
  repeat match type of H with
         | match ?x with _ => _ end = _ => destruct x; try discriminate H
         end;
    injection H as <-; lia.
Qed.

Lemma cp1252_encode_char_ascii c b :
  is_ascii c → Codec.cp1252_encode_char c = Some b → b = c.
Proof.
  intros Hc. unfold Codec.cp1252_encode_char. apply N.ltb_lt in Hc.
  rewrite Hc. now intros [= ->].
Qed.

Lemma cp1252_encode_app s1 s2 :
  Codec.cp1252_encode (s1 ++ s2)
  = match Codec.cp1252_encode s1, Codec.cp1252_encode s2 with
    | Some b1, Some b2 => Some (b1 ++ b2)
    | _, _ => None
    end.
Proof.
  induction s1 as [|c s1 IH]; simpl.
  - now destruct (Codec.cp1252_encode s2).
  - destruct (Codec.cp1252_encode_char c); [|reflexivity].
    rewrite IH. destruct (Codec.cp1252_encode s1); [|reflexivity].
    now destruct (Codec.cp1252_encode s2).
Qed.

(** A text with a character outside ASCII that has only ASCII before it
    and is not followed by another character outside ASCII: its cp1252
    bytes are not well-formed UTF-8. *)
Lemma cp1252_bytes_not_utf8 pre c post result :
  Forall is_ascii pre → 0x80 ≤ c →
  match post with [] => True | d :: _ => is_ascii d end →
  Codec.cp1252_encode (pre ++ c :: post) = Some result →
  Codec.utf8_decode result = None.
Proof.
  intros Hpre Hc Hpost. rewrite cp1252_encode_app, cp1252_encode_ascii by done.
  simpl. destruct (Codec.cp1252_encode_char c) as [b|] eqn:Eb; [|discriminate].
  destruct (Codec.cp1252_encode post) as [bs|] eqn:Ebs; [|discriminate].
  simpl. intros [= <-].
  rewrite utf8_decode_ascii_app by exact Hpre.
  rewrite utf8_decode_lone_high; [reflexivity| |].
  - eapply cp1252_encode_char_high; eauto.
  - destruct post as [|d post]; simpl in Ebs; [now inversion Ebs|].
    destruct (Codec.cp1252_encode_char d) as [bd|] eqn:Ed; [|discriminate].
    destruct (Codec.cp1252_encode post); [|discriminate].
    inversion Ebs; subst.
    now rewrite (cp1252_encode_char_ascii _ _ Hpost Ed).
Qed.

(** ** The output *)

Lemma linesep_out_ascii sep s :
  Forall is_ascii sep → Forall is_ascii s →
  Forall is_ascii (Os.linesep_out sep s).
Proof.
  intros Hsep. induction 1 as [|c s Hc _ IH]; simpl; [constructor|].
  apply Forall_app. split; [|exact IH].
  destruct (c =? LF); [exact Hsep|]. now constructor.
Qed.

Lemma linesep_out_LF s : Os.linesep_out [LF] s = s.
Proof.
  induction s as [|c s IH]; [reflexivity|]. simpl. rewrite IH.
  destruct (c =? LF) eqn:E; [|reflexivity]. apply N.eqb_eq in E. now subst.
Qed.

(** The [-o] branch: the file is opened (and emptied) first; then the
    bytes are decoded as UTF-8, and what was decoded is written. *)
Lemma after_render_output_file a o result w :
  args.output_file a = Some o → o ≠ ""%string →
  after_render a result w
  = let w1 := set_fs <[Os.resolve w o := []]> (log (EvOpen (Some o) ModeW) w) in
    match Codec.utf8_decode result with
    | None => (Raise UnicodeDecodeError, w1)
    | Some s =>
        match Codec.utf8_encode (Os.linesep_out (os_linesep w) s) with
        | Some bs => (Ok [], set_fs <[Os.resolve w o := bs]> w1)
        | None => (Raise UnicodeEncodeError, w1)
        end
    end.
Proof.
  intros Ho Hne. unfold after_render, truthy. rewrite Ho.
  apply String.eqb_neq in Hne. rewrite Hne. simpl.
  unfold Os.open_wt, Os.write_text, bind, modify, gets, lift_opt, ret. simpl.
  destruct (Codec.utf8_decode result); [|reflexivity]. simpl.
  destruct (Codec.utf8_encode _); reflexivity.
Qed.

Lemma after_render_stdout a result w :
  truthy (args.output_file a) = false →
  after_render a result w = (Ok result, w).
Proof. intros H. unfold after_render. now rewrite H. Qed.

(** With [-o] a call of [render_command] that returns, returns the empty
    bytes: standard output receives nothing. *)
Lemma output_file_returns_empty X cwd stdin_ argv a w out w' :
  parse_args X argv = Ok a →
  truthy (args.output_file a) = true →
  render_command X cwd stdin_ argv w = (Ok out, w') →
  out = [].
Proof.
  intros Hp Ho H. rewrite (render_command_stages _ _ _ _ _ _ Hp) in H.
  apply bind_inv in H as [(cr & w1 & _ & H)|(e & _ & ?)]; [|discriminate].
  apply bind_inv in H as [(res & w2 & _ & H)|(e & _ & ?)]; [|discriminate].
  unfold after_render in H. rewrite Ho in H.
  apply bind_inv in H as [(? & ? & _ & H)|(e & _ & ?)]; [|discriminate].
  apply bind_inv in H as [(? & ? & _ & H)|(e & _ & ?)]; [|discriminate].
  apply bind_inv in H as [(? & ? & _ & H)|(e & _ & ?)]; [|discriminate].
  now inversion H.
Qed.

(** Without [-o] the script writes the bytes that [render_command]
    returned to standard output as they are. *)
Lemma main_writes_result X argv w result w' :
  render_command X (os_cwd w) (stdin w) argv w = (Ok result, w') →
  main X argv w = (Ok tt, set_stdout (stdout w' ++ result) w').
Proof.
  intros H. unfold main, bind, gets, try_except, modify. cbv [id].
  now rewrite H.
Qed.




(** C7.  The data [name: é] and the template [{{ name }}], on a system
    whose preferred encoding is UTF-8.  Rendering succeeds: without [-o]
    the script writes the cp1252 byte of [é] to standard output.  With
    [-o out.txt] the script ends with [UnicodeDecodeError], standard
    output has received nothing, and [out.txt] exists and is empty: the
    rendered output was not written to the file. *)
Theorem output_file_not_written_for_accented_text :
  let w := Demo.start UTF8 Demo.accent_files in
  main Demo.X Demo.argv_accent w
  = (Ok tt, set_stdout [0xE9]
              (snd (render_command Demo.X "/work" [] Demo.argv_accent w)))
  ∧ fst (main Demo.X Demo.argv_accent_o w) = Raise UnicodeDecodeError
  ∧ stdout (snd (main Demo.X Demo.argv_accent_o w)) = []
  ∧ fs (snd (main Demo.X Demo.argv_accent_o w)) !! "/work/out.txt"%string
    = Some [].
Proof. repeat split; vm_compute; reflexivity. Qed.

(** ** The trailing newline *)

Lemma fmap_result_ok {A B} (f : A → B) r b :
  Jinja2.fmap_result f r = Ok b → ∃ a, r = Ok a ∧ b = f a.
Proof. destruct r; simpl; intros [= <-]; eauto. Qed.

Lemma render_cons_data u ctx c ns :
  Jinja2.render_nodes u ctx (Jinja2.cons_data c ns)
  = Jinja2.fmap_result (cons c) (Jinja2.render_nodes u ctx ns).
Proof.
  destruct ns as [|[d|n] ns]; simpl; try reflexivity.
  now destruct (Jinja2.render_nodes u ctx ns).
Qed.

Lemma last_cons_nonempty {A} (x : A) l c :
  last l = Some c → last (x :: l) = Some c.
Proof. intros H. rewrite last_cons. now rewrite H. Qed.

Lemma last_app_nonempty {A} (l1 l2 : list A) c :
  last l2 = Some c → last (l1 ++ l2) = Some c.
Proof. intros H. rewrite last_app. now rewrite H. Qed.

(** The last character of a template, when it is not a closing brace, is
    literal text, and the output ends with it. *)
Lemma lex_render_last u ctx n :
  ∀ t, (length t ≤ n)%nat →
    (∀ ns out c, Jinja2.lex_data t = Ok ns →
       Jinja2.render_nodes u ctx ns = Ok out →
       last t = Some c → c ≠ Jinja2.rbrace → last out = Some c)
    ∧ (∀ inner ns out c, Jinja2.lex_var t inner = Ok ns →
         Jinja2.render_nodes u ctx ns = Ok out →
         last t = Some c → c ≠ Jinja2.rbrace → last out = Some c).
Proof.
  induction n as [|n IH]; intros t Hlen.
  { destruct t; [|simpl in Hlen; lia]. split; intros; discriminate. }
  destruct t as [|c0 rest]; [split; intros; discriminate|].
  simpl in Hlen.
  assert (Hdata : ∀ ns out c,
             Jinja2.fmap_result (Jinja2.cons_data c0) (Jinja2.lex_data rest)
             = Ok ns →
             Jinja2.render_nodes u ctx ns = Ok out →
             last (c0 :: rest) = Some c → c ≠ Jinja2.rbrace →
             last out = Some c).
  { intros ns out c Hl Hr Hc Hne.
    apply fmap_result_ok in Hl as (ns' & Hl & ->).
    rewrite render_cons_data in Hr.
    apply fmap_result_ok in Hr as (out' & Hr & ->).
    destruct rest as [|d rest'].
    - simpl in Hl. injection Hl as <-. simpl in Hr. injection Hr as <-.
      exact Hc.
    - apply last_cons_nonempty.
      destruct (IH (d :: rest') ltac:(simpl in *; lia)) as [IHd _].
      eapply IHd; eauto. }
  split.
  - intros ns out c Hl Hr Hc Hne. cbn [Jinja2.lex_data] in Hl.
    destruct (c0 =? Jinja2.lbrace); [|eapply Hdata; eauto].
    destruct rest as [|d rest']; [eapply Hdata; eauto|].
    destruct (d =? Jinja2.lbrace).
    + destruct rest' as [|e rest'']; [discriminate|].
      destruct (IH (e :: rest'') ltac:(simpl in *; lia)) as [_ IHv].
      eapply IHv; eauto.
    + destruct (_ || _); [discriminate|]. eapply Hdata; eauto.
  - intros inner ns out c Hl Hr Hc Hne. cbn [Jinja2.lex_var] in Hl.
    assert (Hvar : ∀ inner', Jinja2.lex_var rest inner' = Ok ns →
                             last out = Some c).
    { intros inner' Hl'. destruct rest as [|d rest']; [discriminate|].
      destruct (IH (d :: rest') ltac:(simpl in *; lia)) as [_ IHv].
      eapply IHv; eauto. }
    destruct (c0 =? Jinja2.rbrace); [|eapply Hvar; eauto].
    destruct rest as [|d rest']; [discriminate|].
    destruct (d =? Jinja2.rbrace) eqn:Ed; [|eapply Hvar; eauto].
    destruct (Jinja2.parse_expression _) as [name|]; [|discriminate].
    apply fmap_result_ok in Hl as (ns' & Hl & ->).
    destruct rest' as [|e rest''].
    { apply N.eqb_eq in Ed. subst d. simpl in Hc. congruence. }
    destruct (IH (e :: rest'') ltac:(simpl in *; lia)) as [IHd _].
    simpl in Hr.
    assert (Hout : ∀ out', Jinja2.render_nodes u ctx ns' = Ok out' →
                           last out' = Some c).
    { intros out' Ho. eapply IHd; eauto. }
    destruct (ctx !! name).
    + apply fmap_result_ok in Hr as (out' & Hr & ->).
      apply last_app_nonempty. eauto.
    + destruct u; [eauto|discriminate].
Qed.

Lemma universal_newlines_last n :
  ∀ s c, (length s ≤ n)%nat → last s = Some c →
    last (Os.universal_newlines s) = Some (if c =? CR then LF else c).
Proof.
  induction n as [|n IH]; intros s c Hlen Hc.
  { destruct s; [discriminate|simpl in Hlen; lia]. }
  destruct s as [|c0 r]; [discriminate|]. simpl in Hlen.
  cbn [Os.universal_newlines].
  destruct (c0 =? CR) eqn:E0.
  - destruct r as [|d r'].
    + simpl in Hc. injection Hc as <-. now rewrite E0.
    + destruct (d =? LF) eqn:Ed.
      * destruct r' as [|e r''].
        -- simpl in Hc. injection Hc as <-. apply N.eqb_eq in Ed. now subst.
        -- apply last_cons_nonempty. apply IH; [simpl in *; lia|exact Hc].
      * apply last_cons_nonempty. apply IH; [simpl in *; lia|exact Hc].
  - destruct r as [|d r'].
    + simpl in Hc. injection Hc as <-. now rewrite E0.
    + apply last_cons_nonempty. apply IH; [simpl in *; lia|exact Hc].
Qed.

Lemma cp1252_encode_char_LF c b :
  Codec.cp1252_encode_char c = Some b → (b = LF ↔ c = LF).
Proof.
  intros H. destruct (N.lt_ge_cases c 0x80) as [Hc|Hc].
  - now rewrite (cp1252_encode_char_ascii _ _ Hc H).
  - pose proof (cp1252_encode_char_high _ _ Hc H). unfold LF. lia.
Qed.

Lemma utf8_encode_char_LF c bs :
  Codec.utf8_encode_char c = Some bs →
  ∃ b, last bs = Some b ∧ (b = LF ↔ c = LF).
Proof.
  unfold Codec.utf8_encode_char.
  destruct (c <? 0x80) eqn:E1; [intros [= <-]; eauto|].
  apply N.ltb_ge in E1.
  assert (Hne : ∀ x, 0x80 + x = LF ↔ c = LF) by (intros; unfold LF; lia).
  destruct (c <? 0x800); [intros [= <-]; simpl; eauto|].
  destruct (c <? 0x10000).
  { destruct (Codec.in_range _ _ _); [discriminate|].
    intros [= <-]; simpl; eauto. }
  destruct (c <? 0x110000); [|discriminate].
  intros [= <-]; simpl; eauto.
Qed.

(** Encoding keeps the line feed at the end, and puts none there. *)
Lemma encode_last enc s bs c :
  Codec.encode enc s = Some bs → last s = Some c →
  ∃ b, last bs = Some b ∧ (b = LF ↔ c = LF).
Proof.
  revert bs. induction s as [|c0 s IH]; intros bs He Hc; [discriminate|].
  destruct enc; simpl in He.
  - destruct (Codec.utf8_encode_char c0) as [cs|] eqn:E0; [|discriminate].
    destruct (Codec.utf8_encode s) as [bs'|] eqn:Es; [|discriminate].
    injection He as <-.
    destruct s as [|c1 s'].
    + simpl in Hc. injection Hc as <-. simpl in Es. injection Es as <-.
      rewrite app_nil_r. now apply utf8_encode_char_LF.
    + destruct (IH bs' Es Hc) as (b & Hb & Hiff).
      exists b. split; [now apply last_app_nonempty|exact Hiff].
  - destruct (Codec.cp1252_encode_char c0) as [b0|] eqn:E0; [|discriminate].
    destruct (Codec.cp1252_encode s) as [bs'|] eqn:Es; [|discriminate].
    injection He as <-.
    destruct s as [|c1 s'].
    + simpl in Hc. injection Hc as <-. simpl in Es. injection Es as <-.
      exists b0. split; [reflexivity|]. now apply cp1252_encode_char_LF.
    + destruct (IH bs' Es Hc) as (b & Hb & Hiff).
      exists b. split; [now apply last_cons_nonempty|exact Hiff].
Qed.

(** [render] as a function of the file. *)
Lemma render_fst r t ctx w :
  fst (render r t ctx w) = render_of_file r t ctx (fs w !! Os.resolve w t).
Proof.
  unfold render, render_of_file, get_template, bind, lift_opt, lift.
  destruct (Jinja2.loader (_env r)) as [l|]; [|reflexivity].
  pose proof (get_source_spec l (_env r) t w) as Hs.
  destruct (FilePathLoader_get_source l (_env r) t w) as [[src|e] w1];
    simpl in Hs.
  - destruct (fs w !! Os.resolve w t); [|discriminate].
    destruct (Codec.decode _ _); [|discriminate].
    injection Hs as ->. simpl.
    destruct (Jinja2.compile _ _); [|reflexivity].
    destruct (Jinja2.render _ _); [|reflexivity].
    destruct (Codec.encode _ _); reflexivity.
  - destruct (fs w !! Os.resolve w t); [|now injection Hs as ->].
    destruct (Codec.decode _ _); [discriminate|]. now injection Hs as ->.
Qed.

(** The dictionary stays in a reachable state, and every renderer built
    from it keeps trailing newlines and reads templates as UTF-8. *)
Lemma first_call_defaults_lookup u cwd :
  first_call_defaults u cwd !! "keep_trailing_newline"%string = Some (PBool true)
  ∧ first_call_defaults u cwd !! "undefined"%string = Some (PUndefined u)
  ∧ first_call_defaults u cwd !! "extensions"%string
    = Some (PExtensions ENABLED_EXTENSIONS)
  ∧ first_call_defaults u cwd !! "loader"%string
    = Some (PLoader (FilePathLoader_init cwd None)).
Proof. repeat split; reflexivity. Qed.

Lemma init_reachable X cwd allow enc w r w' :
  defaults_reachable (init_defaults w) →
  Jinja2TemplateRenderer_init X cwd allow enc None w = (Ok r, w') →
  defaults_reachable (init_defaults w')
  ∧ Jinja2.keep_trailing_newline (_env r) = true
  ∧ (∃ c, Jinja2.loader (_env r) = Some (FilePathLoader_init c None))
  ∧ encoding r = default UTF8 enc.
Proof.
  intros Hd. unfold Jinja2TemplateRenderer_init, bind, gets, modify, ret.
  simpl. intros [= <- <-]. simpl.
  destruct Hd as [->|(u & c & ->)].
  - split; [right; eexists _, cwd; reflexivity|]. repeat split. eauto.
  - destruct (first_call_defaults_lookup u c) as (Hk & Hu & He & Hl).
    erewrite (setdefault_present "keep_trailing_newline") by exact Hk.
    erewrite (setdefault_present "undefined") by exact Hu.
    erewrite (setdefault_present "extensions") by exact He.
    erewrite (setdefault_present "loader") by exact Hl.
    split; [right; eauto|]. rewrite Hk, Hl. repeat split. eauto.
Qed.




(** ** Determinism *)



(** With every name of the template in the context, renderers built by
    any two calls of [__init__] with the same encoding give the same
    result, also when the calls found the default dictionary in different
    states and were given different flags and directories. *)
Lemma render_nodes_defined u u' ctx ns :
  (∀ n, In (Jinja2.Output n) ns → is_Some (ctx !! n)) →
  Jinja2.render_nodes u ctx ns = Jinja2.render_nodes u' ctx ns.
Proof.
  induction ns as [|[d|n] ns IH]; intros H; simpl.
  - reflexivity.
  - rewrite IH; [reflexivity|]. intros n Hn. apply H. now right.
  - destruct (H n (or_introl eq_refl)) as [v ->].
    rewrite IH; [reflexivity|]. intros n' Hn. apply H. now right.
Qed.

Lemma render_deterministic_across_calls
    X enc cwd allow wa ra wa' cwd' allow' wb rb wb' t ctx w1 w2 :
  defaults_reachable (init_defaults wa) →
  defaults_reachable (init_defaults wb) →
  Jinja2TemplateRenderer_init X cwd allow enc None wa = (Ok ra, wa') →
  Jinja2TemplateRenderer_init X cwd' allow' enc None wb = (Ok rb, wb') →
  fs w1 !! Os.resolve w1 t = fs w2 !! Os.resolve w2 t →
  (∀ bs src ns,
     fs w1 !! Os.resolve w1 t = Some bs → Codec.utf8_decode bs = Some src →
     Jinja2.lex_data (Os.universal_newlines (Os.universal_newlines src)) = Ok ns →
     ∀ n, In (Jinja2.Output n) ns → is_Some (ctx !! n)) →
  fst (render ra t ctx w1) = fst (render rb t ctx w2).
Proof.
  intros Ha Hb Hia Hib Hf Hdef.
  destruct (init_reachable _ _ _ _ _ _ _ Ha Hia) as (_ & Hka & (ca & Hla) & Hea).
  destruct (init_reachable _ _ _ _ _ _ _ Hb Hib) as (_ & Hkb & (cb & Hlb) & Heb).
  rewrite !render_fst, <- Hf. unfold render_of_file.
  rewrite Hla, Hlb, Hea, Heb. simpl.
  destruct (fs w1 !! Os.resolve w1 t) as [bs|] eqn:Ef; [|reflexivity].
  destruct (Codec.utf8_decode bs) as [src|] eqn:Ed; [|reflexivity].
  unfold Jinja2.compile, Jinja2.preprocess, Jinja2.normalize_newlines.
  rewrite Hka, Hkb.
  destruct (Jinja2.lex_data _) as [ns|] eqn:El; [|reflexivity]. simpl.
  unfold Jinja2.render. simpl.
  rewrite (render_nodes_defined _ (Jinja2.undefined (_env rb)) ctx ns);
    [reflexivity|].
  eapply Hdef; eauto.
Qed.

(** * Further properties of the program *)

(** ** What the pipeline leaves alone *)

Lemma same_outside_refl w : same_outside w w.
Proof. repeat split. Qed.

Lemma same_outside_trans w1 w2 w3 :
  same_outside w1 w2 → same_outside w2 w3 → same_outside w1 w3.
Proof.
  intros (a1 & a2 & a3 & a4 & a5 & a6) (b1 & b2 & b3 & b4 & b5 & b6).
  repeat split; congruence.
Qed.

Lemma for_each_frame {A R} (P : World → World → Prop)
    (body : R → A → M R) files :
  (∀ w, P w w) → (∀ w1 w2 w3, P w1 w2 → P w2 w3 → P w1 w3) →
  (∀ r f w res w', body r f w = (res, w') → P w w') →
  ∀ r w res w', for_each files body r w = (res, w') → P w w'.
Proof.
  intros Hrefl Htrans Hbody.
  induction files as [|f files IH]; intros r w res w' H; simpl in H.
  - inversion H; subst. apply Hrefl.
  - apply bind_inv in H as [(r1 & w1 & H1 & H2)|(e & H1 & _)]; eauto.
Qed.

Lemma imp_load_source_frame X name f w res w' :
  imp_load_source X name f w = (res, w') → same_outside w w'.
Proof.
  unfold imp_load_source, Os.read_bytes, bind, modify, lift_opt, lift, gets,
    ret. simpl.
  destruct (fs w !! _); simpl;
    [destruct (py_exec X _); simpl|];
    intros H; inversion H; subst; repeat split.
Qed.

Lemma import_filters_frame X self f w res w' :
  import_filters X self f w = (res, w') → same_outside w w'.
Proof.
  unfold import_filters, _import_functions. intros H.
  apply bind_inv in H as [(m & w1 & H1 & H2)|(e & H1 & _)].
  - inversion H2; subst.
    apply bind_inv in H1 as [(m' & w2 & H1 & H3)|(e & H1 & ?)]; [|discriminate].
    inversion H3; subst. eapply imp_load_source_frame; eauto.
  - apply bind_inv in H1 as [(m' & w2 & H1 & H3)|(e' & H1 & ?)];
      [inversion H3|eapply imp_load_source_frame; eauto].
Qed.

Lemma import_tests_frame X self f w res w' :
  import_tests X self f w = (res, w') → same_outside w w'.
Proof.
  unfold import_tests, _import_functions. intros H.
  apply bind_inv in H as [(m & w1 & H1 & H2)|(e & H1 & _)].
  - inversion H2; subst.
    apply bind_inv in H1 as [(m' & w2 & H1 & H3)|(e & H1 & ?)]; [|discriminate].
    inversion H3; subst. eapply imp_load_source_frame; eauto.
  - apply bind_inv in H1 as [(m' & w2 & H1 & H3)|(e' & H1 & ?)];
      [inversion H3|eapply imp_load_source_frame; eauto].
Qed.

Lemma before_render_frame X cwd a w res w' :
  before_render X cwd a w = (res, w') → same_outside w w'.
Proof.
  unfold before_render. intros H.
  pose proof (read_text_world (args.data a) None w) as Hw1.
  assert (H0 : same_outside w (log (EvOpen (args.data a) ModeR) w))
    by (repeat split).
  apply bind_inv in H as [(text & w1 & H1 & H)|(e & H1 & _)];
    rewrite H1 in Hw1; simpl in Hw1; subst; [|exact H0].
  apply bind_inv in H as [(c & w2 & H2 & H)|(e & H2 & _)];
    unfold lift in H2; injection H2 as _ <-; [|exact H0].
  apply bind_inv in H as [(r0 & w3 & H3 & H)|(e & H3 & _)].
  2:{ apply init_trace in H3 as [_ [? ?]]. discriminate. }
  assert (H03 : same_outside w w3).
  { unfold Jinja2TemplateRenderer_init, bind, gets, modify, ret in H3.
    simpl in H3. inversion H3; subst. repeat split. }
  apply bind_inv in H as [(r1 & w4 & H4 & H)|(e & H4 & _)];
    apply (for_each_frame same_outside _ _ same_outside_refl
             same_outside_trans (import_filters_frame X)) in H4;
    [|eapply same_outside_trans; eauto].
  apply bind_inv in H as [(r2 & w5 & H5 & H)|(e & H5 & _)];
    apply (for_each_frame same_outside _ _ same_outside_refl
             same_outside_trans (import_tests_frame X)) in H5;
    [inversion H; subst|];
    eapply same_outside_trans; [|exact H5| |exact H5];
    eapply same_outside_trans; eauto.
Qed.

Lemma render_frame r t ctx w res w' :
  render r t ctx w = (res, w') → same_outside w w'.
Proof.
  intros H. pose proof (render_world r t ctx w) as Hw. rewrite H in Hw.
  simpl in Hw. destruct Hw as [-> | ->]; repeat split.
Qed.



(** ** The script *)



(** ** Edge cases of the arguments *)

(** X3.  An empty [-o] path counts as no [-o]: the command line with
    [-o ''] and the command line without [-o] give the same result and
    leave the same world, so the bytes go to standard output and no file
    is opened for writing. *)
Theorem empty_output_path_is_no_output_path
    X cwd stdin_ argv argv' a w :
  parse_args X argv = Ok a →
  args.output_file a = Some ""%string →
  parse_args X argv' = Ok (without_output_file a) →
  render_command X cwd stdin_ argv w = render_command X cwd stdin_ argv' w.
Proof.
  intros Hp Ho Hp'.
  rewrite (render_command_stages _ _ _ _ _ _ Hp),
    (render_command_stages _ _ _ _ _ _ Hp').
  unfold before_render, after_render, without_output_file. simpl.
  rewrite Ho. reflexivity.
Qed.

Lemma empty_output_path_witness :
  render_command Demo.X "/work" [] Demo.argv_empty_o Demo.w0
  = render_command Demo.X "/work" [] Demo.argv_hello Demo.w0.
Proof.
  apply (empty_output_path_is_no_output_path Demo.X "/work" []
           Demo.argv_empty_o Demo.argv_hello
           (Demo.namespace "hello.j2" (Some "world.yml"%string) false
              (Some ""%string) [] []) Demo.w0); reflexivity.
Defined.

(** X4.  When the data file cannot be read as text or the YAML parser
    rejects it, [render_command] raises that exception and the attempt to
    open the data file is all that has happened: no renderer was built
    (the shared default dictionary is untouched), no extension file and no
    template was loaded. *)
Theorem unreadable_data_stops_before_renderer X cwd stdin_ argv a w e :
  parse_args X argv = Ok a →
  (fst (Os.read_text (args.data a) None w) = Raise e
   ∨ ∃ text, fst (Os.read_text (args.data a) None w) = Ok text
             ∧ yaml_load X text = Raise e) →
  render_command X cwd stdin_ argv w
  = (Raise e, log (EvOpen (args.data a) ModeR) w).
Proof.
  intros Hp H. rewrite (render_command_stages _ _ _ _ _ _ Hp).
  apply bind_raise. unfold before_render.
  pose proof (read_text_world (args.data a) None w) as Hw.
  destruct (Os.read_text (args.data a) None w) as [[text|e0] w1] eqn:Hr;
    simpl in *; subst w1.
  - destruct H as [H|(text' & [= <-] & Hy)]; [discriminate|].
    rewrite (bind_ok _ _ _ _ _ Hr). apply bind_raise.
    unfold lift. now rewrite Hy.
  - destruct H as [[= <-]|(text' & H & _)]; [|discriminate].
    now apply bind_raise.
Qed.

Lemma unreadable_data_witness :
  render_command Demo.X "/work" [] Demo.argv_broken
    (Demo.start UTF8 Demo.broken_files)
  = (Raise UnicodeDecodeError,
     log (EvOpen (Some "broken.yml"%string) ModeR)
       (Demo.start UTF8 Demo.broken_files)).
Proof.
  apply (unreadable_data_stops_before_renderer Demo.X "/work" []
           Demo.argv_broken
           (Demo.namespace "hello.j2" (Some "broken.yml"%string) false None
              [] [])
           (Demo.start UTF8 Demo.broken_files) UnicodeDecodeError);
    [reflexivity|left; vm_compute; reflexivity].
Defined.

(** ** Extension files *)

Lemma import_filters_missing X self f w :
  fs w !! Os.resolve w f = None →
  ∃ e w', import_filters X self f w = (Raise e, w').
Proof.
  intros H.
  unfold import_filters, _import_functions, imp_load_source,
    Os.read_bytes, bind, modify, lift_opt, lift, gets, ret, Os.resolve in *.
  simpl in *. rewrite H. simpl. eauto.
Qed.

Lemma import_tests_missing X self f w :
  fs w !! Os.resolve w f = None →
  ∃ e w', import_tests X self f w = (Raise e, w').
Proof.
  intros H.
  unfold import_tests, _import_functions, imp_load_source,
    Os.read_bytes, bind, modify, lift_opt, lift, gets, ret, Os.resolve in *.
  simpl in *. rewrite H. simpl. eauto.
Qed.

Lemma for_each_missing_file {R} (body : R → string → M R) files f :
  (∀ r g w res w', body r g w = (res, w') → same_outside w w') →
  (∀ r w, fs w !! Os.resolve w f = None → ∃ e w', body r f w = (Raise e, w')) →
  In f files →
  ∀ r w res w', fs w !! Os.resolve w f = None →
    for_each files body r w = (res, w') → ∃ e, res = Raise e.
Proof.
  intros Hframe Hmiss. induction files as [|g files IH]; intros Hin r w res w'
    Hf H; [destruct Hin|]. simpl in H.
  apply bind_inv in H as [(r1 & w1 & H1 & H2)|(e & _ & ->)]; [|eauto].
  destruct Hin as [->|Hin].
  - destruct (Hmiss r w Hf) as (e & w'' & He). congruence.
  - eapply IH; [exact Hin| |exact H2].
    apply Hframe in H1 as (Hfs & Hc & _). unfold Os.resolve in *.
    now rewrite Hfs, Hc.
Qed.

(** X5.  When one of the [--filters] or [--tests] files does not exist,
    [render_command] raises, and it does so before the template is
    loaded, however many of the other files could be loaded. *)
Theorem missing_extension_file_stops_before_template
    X cwd stdin_ argv a w f res w' :
  parse_args X argv = Ok a →
  In f (args.filters a ++ args.tests a) →
  fs w !! Os.resolve w f = None →
  render_command X cwd stdin_ argv w = (res, w') →
  ∃ e evs, res = Raise e ∧ trace w' = trace w ++ evs ∧ no_get_source evs.
Proof.
  intros Hp Hin Hf H. rewrite (render_command_stages _ _ _ _ _ _ Hp) in H.
  apply bind_inv in H as [([c r] & w1 & Hb & _)|(e & Hb & ->)].
  - exfalso. unfold before_render in Hb.
    pose proof (read_text_world (args.data a) None w) as Hw.
    apply bind_inv in Hb as [(text & wa & H1 & Hb)|(e & _ & ?)]; [|discriminate].
    rewrite H1 in Hw. simpl in Hw. subst wa.
    apply bind_inv in Hb as [(c0 & wb & H2 & Hb)|(e & _ & ?)]; [|discriminate].
    unfold lift in H2. injection H2 as _ <-.
    apply bind_inv in Hb as [(r0 & wc & H3 & Hb)|(e & _ & ?)]; [|discriminate].
    assert (Hfc : fs wc !! Os.resolve wc f = None).
    { unfold Jinja2TemplateRenderer_init, bind, gets, modify, ret in H3.
      simpl in H3. inversion H3; subst. exact Hf. }
    apply bind_inv in Hb as [(r1 & wd & H4 & Hb)|(e & _ & ?)]; [|discriminate].
    apply bind_inv in Hb as [(r2 & we & H5 & Hb)|(e & _ & ?)]; [|discriminate].
    apply in_app_or in Hin as [Hin|Hin].
    + destruct (for_each_missing_file _ _ f (import_filters_frame X)
                  (λ r w H, import_filters_missing X r f w H) Hin
                  _ _ _ _ Hfc H4) as [e ?]. discriminate.
    + assert (Hfd : fs wd !! Os.resolve wd f = None).
      { apply (for_each_frame same_outside _ _ same_outside_refl
                 same_outside_trans (import_filters_frame X)) in H4
          as (Hfs & Hc & _). unfold Os.resolve in *. now rewrite Hfs, Hc. }
      destruct (for_each_missing_file _ _ f (import_tests_frame X)
                  (λ r w H, import_tests_missing X r f w H) Hin
                  _ _ _ _ Hfd H5) as [e ?]. discriminate.
  - apply before_render_trace in Hb as (evs & Ht & Hn). eauto.
Qed.

Lemma missing_extension_file_witness :
  ∃ e evs,
    fst (render_command Demo.X "/work" [] Demo.argv_missing_filters Demo.w0)
    = Raise e
    ∧ trace (snd (render_command Demo.X "/work" [] Demo.argv_missing_filters
                    Demo.w0))
      = trace Demo.w0 ++ evs
    ∧ no_get_source evs.
Proof.
  apply (missing_extension_file_stops_before_template Demo.X "/work" []
           Demo.argv_missing_filters
           (Demo.namespace "hello.j2" (Some "world.yml"%string) false None
              ["filters.py"; "nowhere.py"]%string [])
           Demo.w0 "nowhere.py");
    [reflexivity | right; left; reflexivity | reflexivity
    | vm_compute; reflexivity].
Defined.

(** ** The loader *)


Lemma path_join_absolute a t : Os.startswith_sep t = true → Os.path_join a t = t.
Proof. intros H. unfold Os.path_join. now rewrite H. Qed.

(** X7.  When the template path is absolute, or the directory the loader
    was built with is the working directory of the process (as in the
    script, which passes [os.getcwd()]), the [filename] that [get_source]
    reports is the file it has read: its contents are the decoded text of
    that file with line breaks as line feeds, and [uptodate] says
    [False]. *)
Theorem get_source_reads_reported_file l env t w contents filename uptodate :
  Os.startswith_sep t = true ∨ loader_cwd l = os_cwd w →
  fst (FilePathLoader_get_source l env t w) = Ok (contents, filename, uptodate) →
  uptodate = false
  ∧ ∃ bs src, fs w !! filename = Some bs
              ∧ Codec.decode (loader_encoding l) bs = Some src
              ∧ contents = Os.universal_newlines src.
Proof.
  intros Hc. rewrite get_source_spec.
  assert (Hf : Os.path_join (loader_cwd l) t = Os.resolve w t).
  { unfold Os.resolve. destruct Hc as [Ha| ->]; [|reflexivity].
    now rewrite !path_join_absolute. }
  destruct (fs w !! Os.resolve w t) as [bs|] eqn:Ef; [|discriminate].
  destruct (Codec.decode (loader_encoding l) bs) as [s|] eqn:Ed; [|discriminate].
  intros [= <- <- <-]. split; [reflexivity|].
  exists bs, s. rewrite Hf. auto.
Qed.

Lemma get_source_reads_reported_file_witness :
  ∃ bs src, Demo.files !! "/work/hello.j2"%string = Some bs
            ∧ Codec.decode UTF8 bs = Some src
            ∧ py "Hello {{ name }}!" ++ [LF] = Os.universal_newlines src.
Proof.
  apply (get_source_reads_reported_file (FilePathLoader_init "/work" None)
           Demo.plain_env "hello.j2" Demo.w0
           (py "Hello {{ name }}!" ++ [LF]) "/work/hello.j2" false);
    [right; reflexivity | vm_compute; reflexivity].
Defined.

(** ** The constructor *)

Lemma set_init_defaults_same w : set_init_defaults (init_defaults w) w = w.
Proof. now destruct w. Qed.

(** X8.  In a process where [__init__] has not been called before, a
    second call without [j2_env_params] changes nothing in the shared
    dictionary and builds a renderer with the environment settings of the
    first call: its own [cwd] and [allow_undefined] are not used, only its
    [encoding] is. *)
Theorem init_second_call_reuses_first
    X cwd1 allow1 enc1 cwd2 allow2 enc2 w r1 w1 r2 w2 :
  init_defaults w = ∅ →
  Jinja2TemplateRenderer_init X cwd1 allow1 enc1 None w = (Ok r1, w1) →
  Jinja2TemplateRenderer_init X cwd2 allow2 enc2 None w1 = (Ok r2, w2) →
  _env r2 = _env r1 ∧ w2 = w1 ∧ encoding r2 = default UTF8 enc2
  ∧ Jinja2.loader (_env r2) = Some (FilePathLoader_init cwd1 None)
  ∧ Jinja2.undefined (_env r2)
    = (if allow1 then Undefined else StrictUndefined).
Proof.
  intros He H1 H2.
  unfold Jinja2TemplateRenderer_init, bind, gets, modify, ret in H1.
  simpl in H1. rewrite He in H1. injection H1 as <- <-.
  unfold Jinja2TemplateRenderer_init, bind, gets, modify, ret in H2.
  simpl in H2.
  fold (first_call_defaults (if allow1 then Undefined else StrictUndefined)
          cwd1) in H2.
  destruct (first_call_defaults_lookup
              (if allow1 then Undefined else StrictUndefined) cwd1)
    as (Hk & Hu & Hx & Hl).
  erewrite (setdefault_present "keep_trailing_newline") in H2 by exact Hk.
  erewrite (setdefault_present "undefined") in H2 by exact Hu.
  erewrite (setdefault_present "extensions") in H2 by exact Hx.
  erewrite (setdefault_present "loader") in H2 by exact Hl.
  injection H2 as <- <-. simpl.
  fold (first_call_defaults (if allow1 then Undefined else StrictUndefined)
          cwd1).
  rewrite Hl, Hu. repeat split.
Qed.

Lemma init_second_call_witness :
  let d := first_call_defaults StrictUndefined "/work" in
  let env := Jinja2.new_Environment (DEFAULT_FILTERS Demo.X)
               (DEFAULT_TESTS Demo.X) d in
  Jinja2TemplateRenderer_init Demo.X "/elsewhere" true None None
    (set_init_defaults d Demo.w0)
  = (Ok {| encoding := UTF8; _env := env |}, set_init_defaults d Demo.w0)
  ∧ Jinja2.loader env = Some (FilePathLoader_init "/work" None)
  ∧ Jinja2.undefined env = StrictUndefined.
Proof.
  intros d env.
  destruct (init_second_call_reuses_first Demo.X "/work" false (Some CP1252)
              "/elsewhere" true None Demo.w0
              {| encoding := CP1252; _env := env |}
              (set_init_defaults d Demo.w0)
              {| encoding := UTF8; _env := env |}
              (set_init_defaults d Demo.w0))
    as (_ & _ & _ & Hl & Hu).
  - reflexivity.
  - vm_compute. reflexivity.
  - vm_compute. reflexivity.
  - split; [vm_compute; reflexivity|]. split; [exact Hl|exact Hu].
Defined.


(** ** The registries *)

Lemma update_lookup {V} (other d : gmap string V) k :
  update other d !! k
  = match other !! k with Some o => Some o | None => d !! k end.
Proof.
  unfold update. rewrite lookup_union.
  destruct (other !! k), (d !! k); reflexivity.
Qed.


(** ** Loading extension files *)

Lemma foldl_insert_absent (bindings : list (string * PyObj))
    (ns : gmap string PyObj) k :
  ¬ In k (map fst bindings) →
  foldl (λ ns b, <[fst b := snd b]> ns) ns bindings !! k = ns !! k.
Proof.
  revert ns. induction bindings as [|[k0 o0] bs IH]; intros ns Hk; simpl.
  - reflexivity.
  - rewrite IH by (intros H; apply Hk; now right).
    apply lookup_insert_ne. intros ->. apply Hk. now left.
Qed.

Lemma foldl_insert_last (pre post : list (string * PyObj))
    (ns : gmap string PyObj) k o :
  ¬ In k (map fst post) →
  foldl (λ ns b, <[fst b := snd b]> ns) ns (pre ++ (k, o) :: post) !! k
  = Some o.
Proof.
  intros Hk. rewrite foldl_app. simpl.
  rewrite foldl_insert_absent by exact Hk. apply lookup_insert_eq.
Qed.

(** What a load that succeeds returns and leaves behind, in terms of the
    namespace that the module had before. *)
Lemma import_functions_ok X self f w m w' :
  _import_functions X self f w = (Ok m, w') →
  ∃ code bindings,
    fs w !! Os.resolve w f = Some code ∧ py_exec X code = Ok bindings
    ∧ let ns := foldl (λ ns b, <[fst b := snd b]> ns)
                  (default module_attrs (sys_modules w !! MODULE_NAME))
                  bindings in
      m = filter (λ member, isfunction (snd member) = true) ns
      ∧ sys_modules w' !! MODULE_NAME = Some ns.
Proof.
  unfold _import_functions, imp_load_source, Os.read_bytes, bind, modify,
    lift_opt, lift, gets, ret, Os.resolve. simpl.
  destruct (fs w !! _) as [code|] eqn:Ef; simpl; [|discriminate].
  destruct (py_exec X code) as [bindings|] eqn:Ee; simpl; [|discriminate].
  intros [= <- <-]. exists code, bindings.
  split; [reflexivity|]. split; [exact Ee|]. simpl.
  split; [reflexivity|apply lookup_insert_eq].
Qed.







(** ** Rendering *)

Lemma render_nodes_outcome u ctx ns :
  match Jinja2.render_nodes u ctx ns with
  | Ok _ => u = Undefined ∨ ∀ n, In (Jinja2.Output n) ns → is_Some (ctx !! n)
  | Raise e =>
      e = UndefinedError ∧ u = StrictUndefined
      ∧ ∃ n, In (Jinja2.Output n) ns ∧ ctx !! n = None
  end.
Proof.
  induction ns as [|[d|n] ns IH]; simpl.
  - right. intros n [].
  - destruct (Jinja2.render_nodes u ctx ns); simpl.
    + destruct IH as [IH|IH]; [now left|right].
      intros n [H|H]; [discriminate|auto].
    + destruct IH as (-> & -> & n & Hn & Hc). repeat split. eauto.
  - destruct (ctx !! n) as [v|] eqn:E.
    + destruct (Jinja2.render_nodes u ctx ns); simpl.
      * destruct IH as [IH|IH]; [now left|right].
        intros n' [[= <-]|H]; [rewrite E; eauto|auto].
      * destruct IH as (-> & -> & n' & Hn & Hc). repeat split. eauto.
    + destruct u.
      * destruct (Jinja2.render_nodes Undefined ctx ns); simpl.
        -- now left.
        -- destruct IH as (_ & [=] & _).
      * repeat split. exists n. split; [now left|exact E].
Qed.

(** X14.  For a template that compiles, [render] raises [UndefinedError]
    exactly when the environment has the strict policy and some variable
    that the template prints is absent from the context; with the
    permissive policy it never raises [UndefinedError]. *)
Theorem undefined_error_iff_strict_and_missing r t ctx w l bs src tpl :
  Jinja2.loader (_env r) = Some l →
  fs w !! Os.resolve w t = Some bs →
  Codec.decode (loader_encoding l) bs = Some src →
  Jinja2.compile (_env r) (Os.universal_newlines src) = Ok tpl →
  fst (render r t ctx w) = Raise UndefinedError
  ↔ Jinja2.undefined (_env r) = StrictUndefined
    ∧ ∃ n, In (Jinja2.Output n) (Jinja2.nodes tpl) ∧ ctx !! n = None.
Proof.
  intros Hl Hf Hd Hc. rewrite render_fst. unfold render_of_file.
  rewrite Hl, Hf, Hd, Hc. unfold Jinja2.render.
  assert (He : Jinja2.undefined (Jinja2.environment tpl)
               = Jinja2.undefined (_env r)).
  { unfold Jinja2.compile in Hc.
    apply fmap_result_ok in Hc as (ns & _ & ->). reflexivity. }
  rewrite He.
  pose proof (render_nodes_outcome (Jinja2.undefined (_env r)) ctx
                (Jinja2.nodes tpl)) as H.
  destruct (Jinja2.render_nodes _ ctx (Jinja2.nodes tpl)) as [s|e].
  - split.
    + destruct (Codec.encode _ _); discriminate.
    + intros (Hu & n & Hn & Hm). destruct H as [H|H]; [congruence|].
      destruct (H n Hn) as [v Hv]. congruence.
  - destruct H as (-> & Hu & Hn). split; auto.
Qed.

Lemma undefined_error_witness :
  fst (render
         {| encoding := CP1252;
            _env := Jinja2.new_Environment ∅ ∅
                      (first_call_defaults StrictUndefined "/work") |}
         "hello.j2" ∅ Demo.w0)
  = Raise UndefinedError.
Proof.
  apply (undefined_error_iff_strict_and_missing
           {| encoding := CP1252;
              _env := Jinja2.new_Environment ∅ ∅
                        (first_call_defaults StrictUndefined "/work") |}
           "hello.j2" ∅ Demo.w0 (FilePathLoader_init "/work" None)
           Demo.hello_j2 Demo.hello_j2
           {| Jinja2.nodes := [Jinja2.Data (py "Hello ");
                               Jinja2.Output (py "name");
                               Jinja2.Data (py "!" ++ [LF])];
              Jinja2.environment :=
                Jinja2.new_Environment ∅ ∅
                  (first_call_defaults StrictUndefined "/work") |});
    try (vm_compute; reflexivity).
  split; [reflexivity|]. exists (py "name").
  split; [right; left; reflexivity|reflexivity].
Defined.

Lemma universal_newlines_elements n :
  ∀ s, (length s ≤ n)%nat →
    ∀ c, In c (Os.universal_newlines s) → c ≠ CR ∧ (c = LF ∨ In c s).
Proof.
  induction n as [|n IH]; intros s Hlen c Hc.
  { destruct s; [destruct Hc|simpl in Hlen; lia]. }
  destruct s as [|c0 r]; [destruct Hc|]. simpl in Hlen.
  cbn [Os.universal_newlines] in Hc.
  assert (Hrec : ∀ r', (length r' ≤ n)%nat → (∀ x, In x r' → In x (c0 :: r)) →
                       In c (Os.universal_newlines r') →
                       c ≠ CR ∧ (c = LF ∨ In c (c0 :: r))).
  { intros r' Hl Hsub Hin. destruct (IH r' Hl c Hin) as [H1 [H2|H2]]; auto. }
  destruct (c0 =? CR) eqn:E0.
  - destruct r as [|d r'].
    + destruct Hc as [<-|[]]. split; [discriminate|now left].
    + destruct (d =? LF).
      * destruct Hc as [<-|Hc]; [split; [discriminate|now left]|].
        apply (Hrec r'); [simpl in *; lia| |exact Hc].
        intros x Hx. right. now right.
      * destruct Hc as [<-|Hc]; [split; [discriminate|now left]|].
        apply (Hrec (d :: r')); [simpl in *; lia| |exact Hc].
        intros x Hx. now right.
  - destruct Hc as [<-|Hc].
    + apply N.eqb_neq in E0. split; [exact E0|right; now left].
    + apply (Hrec r); [lia| |exact Hc]. intros x Hx. now right.
Qed.

Lemma universal_newlines_fixed s :
  ¬ In CR s → Os.universal_newlines s = s.
Proof.
  induction s as [|c s IH]; intros H; [reflexivity|].
  cbn [Os.universal_newlines].
  destruct (c =? CR) eqn:E.
  - apply N.eqb_eq in E. subst. exfalso. apply H. now left.
  - rewrite IH; [reflexivity|]. intros Hin. apply H. now right.
Qed.

Lemma universal_newlines_idempotent s :
  Os.universal_newlines (Os.universal_newlines s) = Os.universal_newlines s.
Proof.
  apply universal_newlines_fixed. intros H.
  now apply (universal_newlines_elements _ _ (le_n _)) in H as [H _].
Qed.

Lemma lex_data_literal s :
  Forall (λ c, c ≠ Jinja2.lbrace) s →
  Jinja2.lex_data s = Ok (match s with [] => [] | _ => [Jinja2.Data s] end).
Proof.
  induction 1 as [|c s Hc _ IH]; [reflexivity|].
  cbn [Jinja2.lex_data]. apply N.eqb_neq in Hc. rewrite Hc, IH.
  now destruct s.
Qed.

Lemma strip_trailing_newline_elements s c :
  In c (Jinja2.strip_trailing_newline s) → In c s.
Proof.
  unfold Jinja2.strip_trailing_newline.
  destruct (rev s) as [|x r] eqn:E; [auto|].
  destruct (x =? LF); [|auto].
  intros H. apply in_rev. rewrite E. right. now apply in_rev.
Qed.

(** X15.  A template without an opening brace is rendered as it is: the
    output is the text of the template file, with every line break as a
    line feed, encoded in the encoding of the renderer, whatever the
    context and the undefined policy; the only failure left is a
    character that the encoding does not have.  (The text loses one final
    line feed when the environment does not keep trailing newlines.) *)
Theorem literal_template_renders_as_is r t ctx w l bs src :
  Jinja2.loader (_env r) = Some l →
  fs w !! Os.resolve w t = Some bs →
  Codec.decode (loader_encoding l) bs = Some src →
  ¬ In Jinja2.lbrace src →
  fst (render r t ctx w)
  = let text := if Jinja2.keep_trailing_newline (_env r)
                then Os.universal_newlines src
                else Jinja2.strip_trailing_newline (Os.universal_newlines src) in
    match Codec.encode (encoding r) text with
    | Some b => Ok b
    | None => Raise UnicodeEncodeError
    end.
Proof.
  intros Hl Hf Hd Hb. rewrite render_fst. unfold render_of_file.
  rewrite Hl, Hf, Hd.
  unfold Jinja2.compile, Jinja2.preprocess, Jinja2.normalize_newlines.
  rewrite universal_newlines_idempotent. simpl.
  set (text := if Jinja2.keep_trailing_newline (_env r)
               then Os.universal_newlines src
               else Jinja2.strip_trailing_newline (Os.universal_newlines src)).
  assert (Ht : Forall (λ c, c ≠ Jinja2.lbrace) text).
  { apply Forall_forall. intros c Hc ->. apply list_elem_of_In in Hc.
    assert (Hin : In Jinja2.lbrace (Os.universal_newlines src)).
    { subst text. destruct (Jinja2.keep_trailing_newline (_env r)); [exact Hc|].
      now apply strip_trailing_newline_elements. }
    apply (universal_newlines_elements _ _ (le_n _)) in Hin as [_ [H|H]];
      [discriminate|auto]. }
  rewrite (lex_data_literal _ Ht). simpl. unfold Jinja2.render. simpl.
  destruct text as [|c text']; simpl; [reflexivity|].
  now rewrite app_nil_r.
Qed.

Lemma literal_template_witness :
  fst (render
         {| encoding := CP1252;
            _env := Jinja2.new_Environment ∅ ∅
                      (first_call_defaults StrictUndefined "/work") |}
         "world.yml" ∅ Demo.w0)
  = Ok (py "name: World" ++ [LF]).
Proof.
  rewrite (literal_template_renders_as_is
             {| encoding := CP1252;
                _env := Jinja2.new_Environment ∅ ∅
                          (first_call_defaults StrictUndefined "/work") |}
             "world.yml" ∅ Demo.w0 (FilePathLoader_init "/work" None)
             (py "name: World" ++ [LF]) (py "name: World" ++ [LF]));
    try (vm_compute; reflexivity).
  vm_compute. intros H. repeat (destruct H as [H|H]; [discriminate|]).
  exact H.
Defined.

(** ** The bytes of the output *)

Lemma cp1252_decode_encode_char c b :
  Codec.cp1252_encode_char c = Some b →
  Codec.cp1252_decode_byte b = Some c ∧ b < 256.
Proof.
  unfold Codec.cp1252_encode_char.
  destruct (c <? 0x80) eqn:E1.
  { intros [= <-]. unfold Codec.cp1252_decode_byte. rewrite E1.
    apply N.ltb_lt in E1. split; [reflexivity|lia]. }
  destruct ((0xA0 <=? c) && (c <=? 0xFF)) eqn:E2.
  { intros [= <-]. unfold Codec.cp1252_decode_byte. rewrite E1, E2.
    apply andb_prop in E2 as [_ E2]. apply N.leb_le in E2.
    split; [reflexivity|lia]. }
  intros H.
  repeat match type of H with
         | match ?x with _ => _ end = _ => destruct x; try discriminate H
         end;
    injection H as <-; split; (reflexivity || lia).
Qed.

Lemma cp1252_decode_encode s bs :
  Codec.cp1252_encode s = Some bs →
  Codec.cp1252_decode bs = Some s ∧ Forall (λ b, b < 256) bs.
Proof.
  revert bs. induction s as [|c s IH]; intros bs; simpl.
  - intros [= <-]. split; [reflexivity|constructor].
  - destruct (Codec.cp1252_encode_char c) as [b|] eqn:Ec; [|discriminate].
    destruct (Codec.cp1252_encode s) as [bs'|]; [|discriminate].
    intros [= <-]. destruct (IH bs' eq_refl) as [Hd Hf].
    destruct (cp1252_decode_encode_char _ _ Ec) as [Hb Hlt].
    simpl. rewrite Hb, Hd. split; [reflexivity|now constructor].
Qed.

(** X16.  The bytes that [render_command] returns without [-o] are
    octets of the cp1252 code page, none of them one of the five octets
    that the code page leaves undefined: decoding them as cp1252 succeeds
    and gives a text whose cp1252 encoding they are. *)
Theorem render_command_result_decodes_as_cp1252
    X cwd stdin_ argv a w result w' :
  parse_args X argv = Ok a →
  truthy (args.output_file a) = false →
  render_command X cwd stdin_ argv w = (Ok result, w') →
  Forall (λ b, b < 256) result
  ∧ ∃ s, Codec.cp1252_decode result = Some s
         ∧ Codec.cp1252_encode s = Some result.
Proof.
  intros Hp Ho H.
  destruct (render_command_result_cp1252 _ _ _ _ _ _ _ _ Hp Ho H) as [s Hs].
  destruct (cp1252_decode_encode _ _ Hs) as [Hd Hf]. eauto.
Qed.

Lemma render_command_result_decodes_witness :
  Forall (λ b, b < 256) Demo.hello_world
  ∧ ∃ s, Codec.cp1252_decode Demo.hello_world = Some s
         ∧ Codec.cp1252_encode s = Some Demo.hello_world.
Proof.
  apply (render_command_result_decodes_as_cp1252 Demo.X "/work" []
           Demo.argv_hello
           (Demo.namespace "hello.j2" (Some "world.yml"%string) false None
              [] [])
           Demo.w0 Demo.hello_world
           (snd (render_command Demo.X "/work" [] Demo.argv_hello Demo.w0)));
    vm_compute; reflexivity.
Defined.

(** ** The order of a successful run *)

Lemma render_ok_world r t ctx w out w' :
  render r t ctx w = (Ok out, w') →
  w' = log (EvOpen (Some t) ModeR) (log (EvGetSource t) w).
Proof.
  unfold render, get_template, bind, lift_opt, lift.
  destruct (Jinja2.loader (_env r)) as [l|]; [|discriminate].
  pose proof (get_source_world l (_env r) t w) as Hw.
  destruct (FilePathLoader_get_source l (_env r) t w) as [[s|e] w1];
    simpl in *; subst w1; [|discriminate].
  destruct (Jinja2.compile _ _); [|discriminate].
  destruct (Jinja2.render _ _); [|discriminate].
  destruct (Codec.encode _ _); [|discriminate].
  now intros [= _ <-].
Qed.

Lemma after_render_ok_trace a result w out w' :
  after_render a result w = (Ok out, w') →
  trace w' = trace w ++ (if truthy (args.output_file a)
                         then [EvOpen (args.output_file a) ModeW] else []).
Proof.
  destruct (truthy (args.output_file a)) eqn:Ht.
  - destruct (args.output_file a) as [o|] eqn:Eo; [|discriminate].
    assert (o ≠ ""%string) as Hne.
    { simpl in Ht. apply negb_true_iff in Ht. now apply String.eqb_neq. }
    rewrite (after_render_output_file _ _ _ _ Eo Hne). simpl.
    destruct (Codec.utf8_decode result); [|discriminate].
    destruct (Codec.utf8_encode _); [|discriminate].
    now intros [= _ <-].
  - rewrite (after_render_stdout _ _ _ Ht). intros [= _ <-].
    now rewrite app_nil_r.
Qed.


